(** * update_rss_feed.py: extraction of article records and RSS rendering

    A shallow embedding of [src/update_rss_feed.py].  Python [str] values
    are sequences of Unicode code points; [len], [strip], [startswith],
    the [\d] class of [re] and [html.escape] all work on code points, so a
    string is a [list N] here.  The parsed BeautifulSoup tree is the input
    of the extractor; the wall clock is read through an explicit counter
    of clock reads. *)

From Stdlib Require Import String Ascii.
From Stdlib Require Import List NArith Arith Bool Lia.
Import ListNotations.
Open Scope list_scope.
Set Warnings "-abstract-large-number".

(** ** Python strings *)

Module Str.

Definition char := N.
Bind Scope N_scope with char.
Definition str := list char.

Definition hexval (a : ascii) : N :=
  let n := N_of_ascii a in
  if (48 <=? n)%N && (n <=? 57)%N then n - 48
  else if (97 <=? n)%N && (n <=? 102)%N then n - 87
  else if (65 <=? n)%N && (n <=? 70)%N then n - 55
  else 0.

(** [py] reads a Python string literal body: the escapes [\n], [\t], [\r],
    [\\], [\xHH] and [\uHHHH] are decoded, every other character stands
    for its own code point. *)
Fixpoint py (s : string) : str :=
  match s with
  | EmptyString => []
  | String "\" (String "n" r) => 10%N :: py r
  | String "\" (String "t" r) => 9%N :: py r
  | String "\" (String "r" r) => 13%N :: py r
  | String "\" (String "\" r) => 92%N :: py r
  | String "\" (String "x" (String a (String b r))) =>
      (16 * hexval a + hexval b)%N :: py r
  | String "\" (String "u" (String a (String b (String c (String d r))))) =>
      (4096 * hexval a + 256 * hexval b + 16 * hexval c + hexval d)%N :: py r
  | String c r => N_of_ascii c :: py r
  end.

Definition eqb (a b : str) : bool :=
  if list_eq_dec N.eq_dec a b then true else false.

(** [x in xs] for a list of strings. *)
Definition mem (x : str) (xs : list str) : bool := existsb (eqb x) xs.

(** [c in s] for a one-character [c]. *)
Definition has (c : char) (s : str) : bool := existsb (N.eqb c) s.

Fixpoint startswith (s p : str) : bool :=
  match p, s with
  | [], _ => true
  | _ :: _, [] => false
  | x :: p', y :: s' => N.eqb x y && startswith s' p'
  end.

(** Truth value of a string: [if s] holds for the non-empty ones. *)
Definition truthy (s : str) : bool :=
  match s with [] => false | _ :: _ => true end.

(** [str.isspace] for one code point (Unicode 14 table of CPython 3.11). *)
Definition isspace (c : char) : bool :=
  ((9 <=? c) && (c <=? 13) || (28 <=? c) && (c <=? 32)
   || (c =? 133) || (c =? 160) || (c =? 5760)
   || (8192 <=? c) && (c <=? 8202)
   || (c =? 8232) || (c =? 8233) || (c =? 8239) || (c =? 8287)
   || (c =? 12288))%N.

Fixpoint lstrip_by (f : char -> bool) (s : str) : str :=
  match s with
  | [] => []
  | c :: r => if f c then lstrip_by f r else s
  end.

Definition rstrip_by (f : char -> bool) (s : str) : str :=
  rev (lstrip_by f (rev s)).

Definition strip_by (f : char -> bool) (s : str) : str :=
  rstrip_by f (lstrip_by f s).

(** [s.strip()] *)
Definition strip (s : str) : str := strip_by isspace s.

(** [s.replace(old, new)] for a one-character [old]. *)
Definition replace (old : char) (new : str) (s : str) : str :=
  flat_map (fun c => if N.eqb c old then new else [c]) s.

(** Zero code points of the Unicode decimal-digit (Nd) ranges: every range
    is ten consecutive code points carrying the values 0..9.  This is the
    class [\d] of [re] on [str] patterns and the digits [int] accepts. *)
Definition nd_zeros : list N :=
  [ 48; 1632; 1776; 1984; 2406; 2534; 2662; 2790; 2918; 3046; 3174; 3302;
    3430; 3558; 3664; 3792; 3872; 4160; 4240; 6112; 6160; 6470; 6608; 6784;
    6800; 6992; 7088; 7232; 7248; 42528; 43216; 43264; 43472; 43504; 43600;
    44016; 65296; 66720; 68912; 69734; 69872; 69942; 70096; 70384; 70736;
    70864; 71248; 71360; 71472; 71904; 72016; 72784; 73040; 73120; 92768;
    92864; 93008; 120782; 120792; 120802; 120812; 120822; 123200; 123632;
    125264; 130032 ]%N.

Definition digit_value (c : char) : option N :=
  match find (fun z => (z <=? c) && (c <? z + 10))%N nd_zeros with
  | Some z => Some (c - z)%N
  | None => None
  end.

Definition isdigit (c : char) : bool :=
  match digit_value c with Some _ => true | None => false end.

(** An ASCII digit character in a given inclusive range, as the character
    classes [[0-1]], [[1-9]] of a regular expression. *)
Definition in_range (lo hi : N) (c : char) : bool :=
  ((48 + lo <=? c) && (c <=? 48 + hi))%N.

Definition digit_char (n : nat) : char := (48 + N.of_nat n)%N.

(** [s.find(c)] for a one-character [c]: [None] stands for -1. *)
Fixpoint find_char (c : char) (s : str) : option nat :=
  match s with
  | [] => None
  | x :: r => if N.eqb x c then Some 0
              else option_map S (find_char c r)
  end.

(** [s.split(c)] for a one-character separator. *)
Fixpoint split (c : char) (s : str) : list str :=
  match s with
  | [] => [[]]
  | x :: r =>
      if N.eqb x c then [] :: split c r
      else match split c r with
           | [] => [[x]]
           | w :: ws => (x :: w) :: ws
           end
  end.

(** [sep.join(parts)] *)
Fixpoint join (sep : str) (parts : list str) : str :=
  match parts with
  | [] => []
  | [p] => p
  | p :: ps => p ++ sep ++ join sep ps
  end.

End Str.
Import Str.

(** ** The parsed document (bs4) *)

(** Classes of string nodes.  [get_text] called on a tag collects only the
    strings whose class is among the tag's interesting string types. *)
Inductive string_class :=
| NavigableString | CData | Comment | Declaration | Doctype
| ProcessingInstruction | Script | Stylesheet | TemplateString
| RubyTextString | RubyParenthesisString.

Definition string_class_eqb (a b : string_class) : bool :=
  match a, b with
  | NavigableString, NavigableString | CData, CData | Comment, Comment
  | Declaration, Declaration | Doctype, Doctype
  | ProcessingInstruction, ProcessingInstruction | Script, Script
  | Stylesheet, Stylesheet | TemplateString, TemplateString
  | RubyTextString, RubyTextString
  | RubyParenthesisString, RubyParenthesisString => true
  | _, _ => false
  end.

#[warnings="-register-all"]
Inductive node :=
| Text (cls : string_class) (s : str)
| Tag (name : str) (attrs : list (str * str)) (contents : list node).

(** A tag found in a document, with its chain of parents, the nearest
    first; the chain ends with the document object, whose parent is
    [None]. *)
Record element := { parents : list node; self : node }.

(** [tag.interesting_string_types], fixed by the tag name through the
    HTML tree builder's table of string containers. *)
Definition interesting_string_types (name : str) (c : string_class) : bool :=
  if eqb name (py "rt") then string_class_eqb c RubyTextString
  else if eqb name (py "rp") then string_class_eqb c RubyParenthesisString
  else if eqb name (py "style") then string_class_eqb c Stylesheet
  else if eqb name (py "script") then string_class_eqb c Script
  else if eqb name (py "template") then string_class_eqb c TemplateString
  else string_class_eqb c NavigableString || string_class_eqb c CData.

(** All strings below a node, in document order. *)
Fixpoint all_strings (n : node) : list (string_class * str) :=
  match n with
  | Text c s => [(c, s)]
  | Tag _ _ cs =>
      (fix go (l : list node) : list (string_class * str) :=
         match l with
         | [] => []
         | c :: l' => all_strings c ++ go l'
         end) cs
  end.

(** [tag.get_text()], also reached as [tag.text]. *)
Definition get_text (n : node) : str :=
  match n with
  | Text _ s => s
  | Tag name _ _ =>
      concat (map snd
                (filter (fun cs => interesting_string_types name (fst cs))
                        (all_strings n)))
  end.

(** [tag.get(key)] *)
Fixpoint get (key : str) (attrs : list (str * str)) : option str :=
  match attrs with
  | [] => None
  | (k, v) :: r => if eqb k key then Some v else get key r
  end.

Definition attrs_of (n : node) : list (str * str) :=
  match n with Text _ _ => [] | Tag _ a _ => a end.

(** [tag.descendants]: every node below [n], in document order, each with
    its chain of parents. *)
Fixpoint descendants (up : list node) (n : node) : list element :=
  match n with
  | Text _ _ => []
  | Tag _ _ cs =>
      (fix go (l : list node) : list element :=
         match l with
         | [] => []
         | c :: l' =>
             {| parents := n :: up; self := c |}
               :: descendants (n :: up) c ++ go l'
         end) cs
  end.

Definition is_tag_named (name : str) (n : node) : bool :=
  match n with
  | Text _ _ => false
  | Tag nm _ _ => eqb nm name
  end.

(** [soup.find_all(name)] *)
Definition find_all (name : str) (soup : node) : list element :=
  filter (fun e => is_tag_named name (self e)) (descendants [] soup).

(** The document object built by [BeautifulSoup(markup, 'html.parser')]
    around the top-level nodes of the parse. *)
Definition document (top : list node) : node :=
  Tag (py "[document]") [] top.

(** ** The date pattern *)

Definition hyphen : char := 45%N.

(** The pattern [\d{4}-\d{2}-\d{2}] matched at the start of [s]. *)
Definition date_at (s : str) : bool :=
  match s with
  | y1 :: y2 :: y3 :: y4 :: h1 :: m1 :: m2 :: h2 :: d1 :: d2 :: _ =>
      isdigit y1 && isdigit y2 && isdigit y3 && isdigit y4
      && N.eqb h1 hyphen && isdigit m1 && isdigit m2
      && N.eqb h2 hyphen && isdigit d1 && isdigit d2
  | _ => false
  end.

(** [re.search(r'(\d{4}-\d{2}-\d{2})', text)], returning [group(1)] of the
    leftmost match. *)
Fixpoint re_search_date (text : str) : option str :=
  match text with
  | [] => None
  | _ :: rest =>
      if date_at text then Some (firstn 10 text) else re_search_date rest
  end.


(** ** Exceptions and clock reads *)

Inductive exn := ValueError | KeyError.

(** A computation either returns a value, having read the clock some
    number of times so far, or raises. *)
Inductive outcome (A : Type) :=
| Returned (a : A) (reads : nat)
| Raised (e : exn).
Arguments Returned {A} a reads.
Arguments Raised {A} e.

(** The state is the number of clock reads made so far. *)
Definition M (A : Type) := nat -> outcome A.

Definition ret {A} (a : A) : M A := fun k => Returned a k.
Definition raise {A} (e : exn) : M A := fun _ => Raised e.
Definition bind {A B} (m : M A) (f : A -> M B) : M B :=
  fun k => match m k with
           | Returned a k' => f a k'
           | Raised e => Raised e
           end.

(** [try: body except ValueError: handler]; the clock reads of a failed
    body are kept (none of the bodies below reads the clock). *)
Definition try_except_ValueError {A} (body : M A) (handler : M A) : M A :=
  fun k => match body k with
           | Raised ValueError => handler k
           | r => r
           end.

(** Result of a pure library call that may raise. *)
Definition lift {A} (r : exn + A) : M A :=
  match r with inl e => raise e | inr a => ret a end.

Notation "x <- m ;; f" := (bind m (fun x => f))
  (at level 61, m at next level, right associativity).

(** ** datetime *)

Inductive tz := utc.

Record datetime := {
  year : nat; month : nat; day : nat;
  hour : nat; minute : nat; second : nat;
  tzinfo : option tz
}.

(** One read of the wall clock: the [k]-th call of [datetime.now]. *)
Definition read_clock (clock : nat -> datetime) : M datetime :=
  fun k => Returned (clock k) (S k).

Definition is_leap (y : nat) : bool :=
  (y mod 4 =? 0) && (negb (y mod 100 =? 0) || (y mod 400 =? 0)).

Definition days_in_month (y m : nat) : nat :=
  match m with
  | 2 => if is_leap y then 29 else 28
  | 4 | 6 | 9 | 11 => 30
  | _ => 31
  end.

Definition days_before_year (y : nat) : nat :=
  let p := y - 1 in p * 365 + p / 4 - p / 100 + p / 400.

Definition days_before_month (y m : nat) : nat :=
  nth m [0; 0; 31; 59; 90; 120; 151; 181; 212; 243; 273; 304; 334] 0
  + (if (2 <? m) && is_leap y then 1 else 0).

Definition toordinal (d : datetime) : nat :=
  days_before_year (year d) + days_before_month (year d) (month d) + day d.

(** [d.weekday()]: Monday is 0. *)
Definition weekday (d : datetime) : nat := (toordinal d + 6) mod 7.

Definition day_abbr : list str :=
  [py "Mon"; py "Tue"; py "Wed"; py "Thu"; py "Fri"; py "Sat"; py "Sun"].

Definition month_abbr : list str :=
  [py "Jan"; py "Feb"; py "Mar"; py "Apr"; py "May"; py "Jun";
   py "Jul"; py "Aug"; py "Sep"; py "Oct"; py "Nov"; py "Dec"].

(** Decimal digits of a number, most significant first. *)
Fixpoint dec_aux (fuel n : nat) (acc : str) : str :=
  match fuel with
  | 0 => acc
  | S f =>
      let acc' := digit_char (n mod 10) :: acc in
      if n / 10 =? 0 then acc' else dec_aux f (n / 10) acc'
  end.

Definition dec (n : nat) : str := dec_aux (S n) n [].

(** Two digits, zero filled. *)
Definition dec2 (n : nat) : str :=
  if n <? 10 then digit_char 0 :: dec n else dec n.

Definition percent : char := 37%N.

(** One conversion of [strftime] in the C locale.  [%Y] is the plain
    decimal year, as the C library prints it. *)
Definition directive (c : char) (d : datetime) : str :=
  if N.eqb c 97 (* a *) then nth (weekday d) day_abbr []
  else if N.eqb c 98 (* b *) then nth (month d - 1) month_abbr []
  else if N.eqb c 100 (* d *) then dec2 (day d)
  else if N.eqb c 109 (* m *) then dec2 (month d)
  else if N.eqb c 89 (* Y *) then dec (year d)
  else if N.eqb c 72 (* H *) then dec2 (hour d)
  else if N.eqb c 77 (* M *) then dec2 (minute d)
  else if N.eqb c 83 (* S *) then dec2 (second d)
  else if N.eqb c 122 (* z *) then
    match tzinfo d with Some utc => py "+0000" | None => [] end
  else if N.eqb c percent then [percent]
  else [percent; c].

(** [d.strftime(fmt)] *)
Fixpoint strftime (d : datetime) (fmt : str) : str :=
  match fmt with
  | [] => []
  | c :: r =>
      if N.eqb c percent then
        match r with
        | [] => [percent]
        | x :: r' => directive x d ++ strftime d r'
        end
      else c :: strftime d r
  end.

(** [int(s)] on a string of decimal digits of any script. *)
Definition int_digits (s : str) : nat :=
  fold_left (fun acc c =>
               match digit_value c with
               | Some v => 10 * acc + N.to_nat v
               | None => acc
               end) s 0.

(** The alternatives of the [%m] pattern [1[0-2]|0[1-9]|[1-9]] that match
    at the start of [s], in the order the regex engine tries them, each
    with the text that follows. *)
Definition alts_m (s : str) : list (nat * str) :=
  (match s with
   | a :: b :: r =>
       if N.eqb a 49 && in_range 0 2 b then [(int_digits [a; b], r)] else []
   | _ => []
   end)
  ++ (match s with
      | a :: b :: r =>
          if N.eqb a 48 && in_range 1 9 b then [(int_digits [a; b], r)] else []
      | _ => []
      end)
  ++ (match s with
      | a :: r => if in_range 1 9 a then [(int_digits [a], r)] else []
      | _ => []
      end).

(** The alternatives of the [%d] pattern
    [3[0-1]|[1-2]\d|0[1-9]|[1-9]| [1-9]]. *)
Definition alts_d (s : str) : list (nat * str) :=
  (match s with
   | a :: b :: r =>
       if N.eqb a 51 && in_range 0 1 b then [(int_digits [a; b], r)] else []
   | _ => []
   end)
  ++ (match s with
      | a :: b :: r =>
          if in_range 1 2 a && isdigit b then [(int_digits [a; b], r)] else []
      | _ => []
      end)
  ++ (match s with
      | a :: b :: r =>
          if N.eqb a 48 && in_range 1 9 b then [(int_digits [a; b], r)] else []
      | _ => []
      end)
  ++ (match s with
      | a :: r => if in_range 1 9 a then [(int_digits [a], r)] else []
      | _ => []
      end)
  ++ (match s with
      | a :: b :: r =>
          if N.eqb a 32 && in_range 1 9 b then [(int_digits [b], r)] else []
      | _ => []
      end).

(** First success of a backtracking choice. *)
Fixpoint first_some {A B} (f : A -> option B) (l : list A) : option B :=
  match l with
  | [] => None
  | a :: r => match f a with Some b => Some b | None => first_some f r end
  end.

(** The compiled format ["%Y-%m-%d"] matched at the start of the data:
    year, month, day and the unconverted remainder. *)
Definition match_ymd (s : str) : option (nat * nat * nat * str) :=
  match s with
  | y1 :: y2 :: y3 :: y4 :: h :: r =>
      if isdigit y1 && isdigit y2 && isdigit y3 && isdigit y4
         && N.eqb h hyphen
      then
        first_some
          (fun mr : nat * str =>
             match snd mr with
             | h2 :: r2 =>
                 if N.eqb h2 hyphen then
                   match alts_d r2 with
                   | (d, r3) :: _ =>
                       Some (int_digits [y1; y2; y3; y4], fst mr, d, r3)
                   | [] => None
                   end
                 else None
             | [] => None
             end)
          (alts_m r)
      else None
  | _ => None
  end.

(** [datetime.datetime.strptime(s, "%Y-%m-%d")]: [ValueError] when the
    data does not match the format, when unconverted data remains, or
    when the fields are not a date of the calendar. *)
Definition strptime_ymd (s : str) : exn + datetime :=
  match match_ymd s with
  | Some (y, m, d, []) =>
      if (1 <=? y) && (y <=? 9999) && (1 <=? m) && (m <=? 12)
         && (1 <=? d) && (d <=? days_in_month y m)
      then inr {| year := y; month := m; day := d;
                  hour := 0; minute := 0; second := 0; tzinfo := None |}
      else inl ValueError
  | _ => inl ValueError
  end.

(** [dt.replace(hour=12, minute=0, second=0, tzinfo=timezone.utc)] *)
Definition replace_noon_utc (d : datetime) : datetime :=
  {| year := year d; month := month d; day := day d;
     hour := 12; minute := 0; second := 0; tzinfo := Some utc |}.

(** ** urllib.parse *)

Definition uses_relative : list str :=
  map py [EmptyString;"ftp";"http";"gopher";"nntp";"imap";"wais";"file";"https";
          "shttp";"mms";"prospero";"rtsp";"rtspu";"sftp";"svn";"svn+ssh";
          "ws";"wss"]%string.

Definition uses_netloc : list str :=
  map py [EmptyString;"ftp";"http";"gopher";"nntp";"telnet";"imap";"wais";"file";
          "mms";"https";"shttp";"snews";"prospero";"rtsp";"rtspu";"rsync";
          "svn";"svn+ssh";"sftp";"nfs";"git";"git+ssh";"ws";"wss"]%string.

Definition uses_params : list str :=
  map py [EmptyString;"ftp";"hdl";"prospero";"http";"imap";"https";"shttp";"rtsp";
          "rtspu";"sip";"sips";"mms";"sftp";"tel"]%string.

Definition ascii_alpha (c : char) : bool :=
  ((65 <=? c) && (c <=? 90) || (97 <=? c) && (c <=? 122))%N.

Definition scheme_chars (c : char) : bool :=
  (ascii_alpha c || (48 <=? c) && (c <=? 57)
   || (c =? 43) || (c =? 45) || (c =? 46))%N.

Definition lower (c : char) : char :=
  if ((65 <=? c) && (c <=? 90))%N then (c + 32)%N else c.

Definition isascii (s : str) : bool := forallb (fun c => (c <? 128)%N) s.

(** The characters of [_WHATWG_C0_CONTROL_OR_SPACE]. *)
Definition c0_control_or_space (c : char) : bool := (c <=? 32)%N.

(** [s.rfind(c)] *)
Fixpoint rfind_char (c : char) (s : str) : option nat :=
  match s with
  | [] => None
  | x :: r =>
      match rfind_char c r with
      | Some i => Some (S i)
      | None => if N.eqb x c then Some 0 else None
      end
  end.

(** [s.split(c, 1)] when [c] occurs in [s]. *)
Definition split_once (c : char) (s : str) : option (str * str) :=
  match find_char c s with
  | Some i => Some (firstn i s, skipn (S i) s)
  | None => None
  end.

Record SplitResult := {
  sr_scheme : str; sr_netloc : str; sr_path : str;
  sr_query : str; sr_fragment : str
}.

Record ParseResult := {
  scheme : str; netloc : str; path : str;
  params : str; query : str; fragment : str
}.

(** What the standard library decides with tables that are not part of
    this program: the validation of a bracketed host (through
    [ipaddress]) and the NFKC check of a non-ASCII host.  Each answers
    whether the host passes. *)
Record netloc_checks := {
  check_bracketed_netloc : str -> bool;
  checknetloc_nfkc : str -> bool
}.

Section Urllib.

Variable checks : netloc_checks.

Definition splitnetloc (url : str) : str * str :=
  let body := skipn 2 url in
  let delim c := (N.eqb c 47 || N.eqb c 63 || N.eqb c 35) in
  let fix span (s : str) : str * str :=
    match s with
    | [] => ([], [])
    | c :: r => if delim c then ([], s)
                else let (a, b) := span r in (c :: a, b)
    end in
  span body.

Definition urlsplit (url scheme : str) : exn + SplitResult :=
  let url := lstrip_by c0_control_or_space url in
  let scheme := strip_by c0_control_or_space scheme in
  let url := replace 10 [] (replace 13 [] (replace 9 [] url)) in
  let scheme := replace 10 [] (replace 13 [] (replace 9 [] scheme)) in
  let '(scheme, url) :=
    match find_char 58 url, url with
    | Some (S i), c0 :: _ =>
        if (c0 <? 128)%N && ascii_alpha c0
           && forallb scheme_chars (firstn (S i) url)
        then (map lower (firstn (S i) url), skipn (S (S i)) url)
        else (scheme, url)
    | _, _ => (scheme, url)
    end in
  let '(netloc, url, ok) :=
    if eqb (firstn 2 url) (py "//") then
      let (netloc, url) := splitnetloc url in
      if (has 91 netloc && negb (has 93 netloc))
         || (has 93 netloc && negb (has 91 netloc))
      then (netloc, url, false)
      else if has 91 netloc && has 93 netloc
      then (netloc, url, check_bracketed_netloc checks netloc)
      else (netloc, url, true)
    else ([], url, true) in
  if negb ok then inl ValueError else
  let '(url, fragment) :=
    match split_once 35 url with
    | Some (u, f) => (u, f)
    | None => (url, [])
    end in
  let '(url, query) :=
    match split_once 63 url with
    | Some (u, q) => (u, q)
    | None => (url, [])
    end in
  if truthy netloc && negb (isascii netloc)
     && negb (checknetloc_nfkc checks netloc)
  then inl ValueError
  else inr {| sr_scheme := scheme; sr_netloc := netloc; sr_path := url;
              sr_query := query; sr_fragment := fragment |}.

Definition splitparams (url : str) : str * str :=
  match rfind_char 47 url with
  | Some k =>
      match find_char 59 (skipn k url) with
      | Some j => (firstn (k + j) url, skipn (S (k + j)) url)
      | None => (url, [])
      end
  | None =>
      match find_char 59 url with
      | Some i => (firstn i url, skipn (S i) url)
      | None => (url, [])
      end
  end.

Definition urlparse (url scheme : str) : exn + ParseResult :=
  match urlsplit url scheme with
  | inl e => inl e
  | inr r =>
      let (url, params) :=
        if mem (sr_scheme r) uses_params && has 59 (sr_path r)
        then splitparams (sr_path r)
        else (sr_path r, []) in
      inr {| scheme := sr_scheme r; netloc := sr_netloc r; path := url;
             params := params; query := sr_query r;
             fragment := sr_fragment r |}
  end.

Definition urlunsplit (scheme netloc url query fragment : str) : str :=
  let url :=
    if truthy netloc
       || (truthy scheme && mem scheme uses_netloc
           && negb (eqb (firstn 2 url) (py "//")))
    then
      let url := if truthy url && negb (eqb (firstn 1 url) (py "/"))
                 then py "/" ++ url else url in
      py "//" ++ netloc ++ url
    else url in
  let url := if truthy scheme then scheme ++ py ":" ++ url else url in
  let url := if truthy query then url ++ py "?" ++ query else url in
  if truthy fragment then url ++ py "#" ++ fragment else url.

Definition urlunparse (scheme netloc url params query fragment : str) : str :=
  let url := if truthy params then url ++ py ";" ++ params else url in
  urlunsplit scheme netloc url query fragment.

(** [segments[1:-1] = filter(None, segments[1:-1])] *)
Definition drop_inner_empty (segments : list str) : list str :=
  match segments with
  | [] => []
  | first :: r =>
      match rev r with
      | [] => [first]
      | last :: inner => first :: filter truthy (rev inner) ++ [last]
      end
  end.

(** The loop over the segments that resolves [.] and [..]. *)
Definition resolve_segments (segments : list str) : list str :=
  fold_left
    (fun resolved seg =>
       if eqb seg (py "..") then removelast resolved
       else if eqb seg (py ".") then resolved
       else resolved ++ [seg])
    segments [].

Definition urljoin (base url : str) : exn + str :=
  if negb (truthy base) then inr url
  else if negb (truthy url) then inr base
  else
    match urlparse base [] with
    | inl e => inl e
    | inr b =>
        match urlparse url (scheme b) with
        | inl e => inl e
        | inr u =>
            if negb (eqb (scheme u) (scheme b))
               || negb (mem (scheme u) uses_relative)
            then inr url
            else if mem (scheme u) uses_netloc && truthy (netloc u)
            then inr (urlunparse (scheme u) (netloc u) (path u) (params u)
                                 (query u) (fragment u))
            else
              let netloc' :=
                if mem (scheme u) uses_netloc then netloc b else netloc u in
              if negb (truthy (path u)) && negb (truthy (params u))
              then
                let query' :=
                  if truthy (query u) then query u else query b in
                inr (urlunparse (scheme u) netloc' (path b) (params b)
                                query' (fragment u))
              else
                let base_parts := split 47 (path b) in
                let base_parts :=
                  if truthy (last base_parts [])
                  then removelast base_parts else base_parts in
                let segments :=
                  if eqb (firstn 1 (path u)) (py "/")
                  then split 47 (path u)
                  else drop_inner_empty (base_parts ++ split 47 (path u)) in
                let resolved_path := resolve_segments segments in
                let resolved_path :=
                  if mem (last segments []) [py "."; py ".."]
                  then resolved_path ++ [[]] else resolved_path in
                let joined := join (py "/") resolved_path in
                inr (urlunparse (scheme u) netloc'
                                (if truthy joined then joined else py "/")
                                (params u) (query u) (fragment u))
        end
    end.

End Urllib.

(** ** Dictionaries *)

(** An article record is a [dict] from field names to strings. *)
Definition dict := list (str * str).

(** [d[key]] *)
Definition subscript (d : dict) (key : str) : M str :=
  match get key d with
  | Some v => ret v
  | None => raise KeyError
  end.

(** [d.get(key, default)] *)
Definition get_default (key : str) (d : dict) (default : str) : str :=
  match get key d with
  | Some v => v
  | None => default
  end.

(** ** The extractor *)

Definition BASE_URL : str := py "https://www.orangenews.hk".

Definition navigation_labels : list str :=
  [ py "\u67e5\u770b\u66f4\u591a"; py "\u4e0b\u8f09APP";
    py "\u767b\u5165"; py "\u9996\u9801" ].

(** The walk up the parents of a link:
    [while parent and search_depth < 5]. *)
Fixpoint search_parents (parent : list node) (search_depth : nat)
  : option str :=
  match parent with
  | [] => None
  | p :: up =>
      if search_depth <? 5 then
        match re_search_date (get_text p) with
        | Some date_text => Some date_text
        | None => search_parents up (S search_depth)
        end
      else None
  end.

(** [any(a['link'] == href for a in articles)] *)
Fixpoint any_link (href : str) (articles : list dict) : M bool :=
  match articles with
  | [] => ret false
  | a :: r =>
      l <- subscript a (py "link") ;;
      if eqb l href then ret true else any_link href r
  end.

Section Extractor.

Variable checks : netloc_checks.

(** [BeautifulSoup(markup, 'html.parser')]: the top-level nodes of the
    parsed markup. *)
Variable html_parser : str -> list node.

(** [datetime.datetime.now()] at each read of the clock. *)
Variable now : nat -> datetime.

(** One turn of the loop over the links. *)
Definition loop_body (link : element) (articles : list dict)
  : M (list dict) :=
  let text := get_text (self link) in
  if negb (truthy text) || mem (strip text) navigation_labels
  then ret articles
  else
    let title := strip text in
    if length title <? 5 then ret articles
    else
      match get (py "href") (attrs_of (self link)) with
      | None => ret articles
      | Some href =>
          if negb (truthy href) || eqb href (py "#") then ret articles
          else
            href <- (if negb (startswith href (py "http"))
                     then lift (urljoin checks BASE_URL href)
                     else ret href) ;;
            let date_text := search_parents (parents link) 0 in
            date_text <-
              (match date_text with
               | Some d =>
                   if truthy d then ret d
                   else (t <- read_clock now ;;
                         ret (strftime t (py "%Y-%m-%d")))
               | None => t <- read_clock now ;;
                         ret (strftime t (py "%Y-%m-%d"))
               end) ;;
            let description := title in
            if truthy title && truthy href && truthy date_text then
              dup <- any_link href articles ;;
              if negb dup then
                ret (articles ++ [[ (py "title", title);
                                    (py "link", href);
                                    (py "pubDate", date_text);
                                    (py "description", description) ]])
              else ret articles
            else ret articles
      end.

(** [for link in links: ...] *)
Fixpoint for_links (links : list element) (articles : list dict)
  : M (list dict) :=
  match links with
  | [] => ret articles
  | link :: rest =>
      articles' <- loop_body link articles ;;
      for_links rest articles'
  end.

Definition extract_articles (html_content : option str) : M (list dict) :=
  match html_content with
  | None => ret []
  | Some markup =>
      if negb (truthy markup) then ret []
      else
        let soup := document (html_parser markup) in
        for_links (find_all (py "a") soup) []
  end.

End Extractor.

(** ** The renderer *)

Definition rfc822 : str := py "%a, %d %b %Y %H:%M:%S %z".

(** [html.escape(s)], with [quote=True]. *)
Definition escape (s : str) : str :=
  let s := replace 38 (py "&amp;") s in
  let s := replace 60 (py "&lt;") s in
  let s := replace 62 (py "&gt;") s in
  let s := replace 34 (py "&quot;") s in
  replace 39 (py "&#x27;") s.

Section Renderer.

(** [datetime.datetime.now(datetime.timezone.utc)] at each read. *)
Variable utcnow : nat -> datetime.

Definition now_rfc822 : M str :=
  t <- read_clock utcnow ;; ret (strftime t rfc822).

(** One turn of the loop over the articles: the item appended to the
    document so far. *)
Definition render_item (article : dict) (rss_content : str) : M str :=
  let title := escape (get_default (py "title") article (py "No Title")) in
  let link := escape (get_default (py "link") article (py "#")) in
  let description :=
    escape (get_default (py "description") article title) in
  pub_date_rfc822 <-
    (match get (py "pubDate") article with
     | Some pub_date_str =>
         if truthy pub_date_str then
           try_except_ValueError
             (dt_object <- lift (strptime_ymd pub_date_str) ;;
              let dt_object := replace_noon_utc dt_object in
              ret (strftime dt_object rfc822))
             now_rfc822
         else now_rfc822
     | None => now_rfc822
     end) ;;
  ret (rss_content
       ++ py "  <item>\n"
       ++ (py "    <title>" ++ title ++ py "</title>\n")
       ++ (py "    <link>" ++ link ++ py "</link>\n")
       ++ (py "    <description>" ++ description ++ py "</description>\n")
       ++ (py "    <pubDate>" ++ pub_date_rfc822 ++ py "</pubDate>\n")
       ++ (py "    <guid isPermaLink=\x22true\x22>" ++ link ++ py "</guid>\n")
       ++ py "  </item>\n").

Fixpoint for_articles (articles : list dict) (rss_content : str) : M str :=
  match articles with
  | [] => ret rss_content
  | article :: rest =>
      rss_content' <- render_item article rss_content ;;
      for_articles rest rss_content'
  end.

Definition generate_rss_xml (articles : list dict) : M str :=
  let rss_content := py "<?xml version=\x221.0\x22 encoding=\x22UTF-8\x22 ?>\n" in
  let rss_content := rss_content
    ++ py "<rss version=\x222.0\x22 xmlns:atom=\x22http://www.w3.org/2005/Atom\x22>\n" in
  let rss_content := rss_content ++ py "<channel>\n" in
  let rss_content := rss_content
    ++ py "  <title>Orange News - Commentaries</title>\n" in
  let rss_content := rss_content
    ++ (py "  <link>" ++ BASE_URL ++ py "/html/topic/index.html</link>\n") in
  let rss_content := rss_content
    ++ py "  <description>Latest commentaries from Orange News HK</description>\n" in
  let rss_content := rss_content ++ py "  <language>zh-cn</language>\n" in
  let rss_content := rss_content
    ++ py "  <atom:link href=\x22https://totrphbm.manus.space/feed.xml\x22 rel=\x22self\x22 type=\x22application/rss+xml\x22 />\n" in
  stamp <- now_rfc822 ;;
  let rss_content := rss_content
    ++ (py "  <lastBuildDate>" ++ stamp ++ py "</lastBuildDate>\n") in
  rss_content <- for_articles articles rss_content ;;
  let rss_content := rss_content ++ py "</channel>\n" in
  let rss_content := rss_content ++ py "</rss>\n" in
  ret rss_content.

End Renderer.

(** ** Vocabulary of the properties *)

(** The trimmed text and the [href] attribute of a link. *)
Definition title_of (link : element) : str := strip (get_text (self link)).

Definition href_of (link : element) : option str :=
  get (py "href") (attrs_of (self link)).

(** A qualifying link, in the words of the specification: non-empty
    trimmed text that is no navigation label and has at least five
    characters, an [href] that is present and is not [#]. *)
Definition qualifying_as_stated (link : element) : bool :=
  truthy (title_of link)
  && negb (mem (title_of link) navigation_labels)
  && (5 <=? length (title_of link))
  && match href_of link with
     | Some href => negb (eqb href (py "#"))
     | None => false
     end.

(** The same with the [href] also required to be non-empty. *)
Definition qualifying (link : element) : bool :=
  truthy (title_of link)
  && negb (mem (title_of link) navigation_labels)
  && (5 <=? length (title_of link))
  && match href_of link with
     | Some href => truthy href && negb (eqb href (py "#"))
     | None => false
     end.

(** The links the extractor enumerates: the [a] tags of the parsed
    document, in document order; none when there is no content. *)
Definition enumerated_links (html_parser : str -> list node)
  (html_content : option str) : list element :=
  match html_content with
  | None => []
  | Some markup =>
      if negb (truthy markup) then []
      else find_all (py "a") (document (html_parser markup))
  end.

(** The links the specification says never reach the output. *)
Definition disqualified (link : element) : bool :=
  (length (title_of link) <? 5)
  || mem (title_of link) navigation_labels
  || match href_of link with
     | Some href => eqb href (py "#")
     | None => true
     end.

(** The scheme of a reference as [urlsplit] detects it, if it has one. *)
Definition url_scheme (url : str) : option str :=
  let url := lstrip_by c0_control_or_space url in
  let url := replace 10 [] (replace 13 [] (replace 9 [] url)) in
  match find_char 58 url, url with
  | Some (S i), c0 :: _ =>
      if (c0 <? 128)%N && ascii_alpha c0
         && forallb scheme_chars (firstn (S i) url)
      then Some (map lower (firstn (S i) url))
      else None
  | _, _ => None
  end.

(** The [href] as the loop stores it. *)
Definition normalize_url (checks : netloc_checks) (href : str) : exn + str :=
  if startswith href (py "http") then inr href
  else urljoin checks BASE_URL href.

Definition resolved_href (checks : netloc_checks) (link : element)
  : option str :=
  match href_of link with
  | Some href =>
      match normalize_url checks href with
      | inr u => Some u
      | inl _ => None
      end
  | None => None
  end.

(** The date found by looking at the given parents in turn. *)
Definition first_date (ps : list node) : option str :=
  first_some (fun p => re_search_date (get_text p)) ps.

(** A string that is exactly one match of [\d{4}-\d{2}-\d{2}]. *)
Definition is_date (d : str) : bool := (length d =? 10) && date_at d.

Definition today (now : nat -> datetime) (k : nat) : str :=
  strftime (now k) (py "%Y-%m-%d").

(** The record built from a title, a stored link and a date. *)
Definition record (title link date : str) : dict :=
  [ (py "title", title); (py "link", link);
    (py "pubDate", date); (py "description", title) ].

(** The record a link gives rise to before duplicates are looked at. *)
Definition candidate (checks : netloc_checks) (now : nat -> datetime)
  (link : element) : M (option dict) :=
  if qualifying link then
    match href_of link with
    | Some href =>
        u <- lift (normalize_url checks href) ;;
        d <- (match first_date (firstn 5 (parents link)) with
              | Some d => ret d
              | None => t <- read_clock now ;;
                        ret (strftime t (py "%Y-%m-%d"))
              end) ;;
        ret (Some (record (title_of link) u d))
    | None => ret None
    end
  else ret None.

Fixpoint candidates (checks : netloc_checks) (now : nat -> datetime)
  (links : list element) : M (list dict) :=
  match links with
  | [] => ret []
  | link :: rest =>
      c <- candidate checks now link ;;
      cs <- candidates checks now rest ;;
      ret (match c with Some a => a :: cs | None => cs end)
  end.

Definition same_link (a b : dict) : bool :=
  match get (py "link") a, get (py "link") b with
  | Some x, Some y => eqb x y
  | _, _ => false
  end.

(** Of a sequence of candidates, those that no earlier candidate shares
    its link with. *)
Fixpoint keep_first (earlier cands : list dict) : list dict :=
  match cands with
  | [] => []
  | c :: rest =>
      (if existsb (fun e => same_link e c) earlier then [] else [c])
        ++ keep_first (earlier ++ [c]) rest
  end.

Definition has_link (a : dict) : bool :=
  match get (py "link") a with Some _ => true | None => false end.

Definition links_to (u : str) (a : dict) : bool :=
  match get (py "link") a with Some l => eqb l u | None => false end.

(** The end of a turn of the loop: a record joins the list unless its link
    is already there. *)
Definition add_unique (articles : list dict) (c : dict) : list dict :=
  if existsb (fun e => same_link e c) articles then articles
  else articles ++ [c].

(** A clock that reads a four-digit year and a date of the calendar. *)
Definition four_digit_year (t : datetime) : Prop :=
  1000 <= year t <= 9999 /\ 1 <= month t <= 12 /\ 1 <= day t <= 31.

(** Number of places of [s] where [pat] starts. *)
Fixpoint occurrences (pat s : str) : nat :=
  match s with
  | [] => 0
  | _ :: r => (if startswith s pat then 1 else 0) + occurrences pat r
  end.

(** Whether [p] starts [s], decided on [s] alone: [None] when [s] ends
    before the answer is known. *)
Fixpoint startswith_within (s p : str) : option bool :=
  match p, s with
  | [], _ => Some true
  | _ :: _, [] => None
  | x :: p', y :: s' =>
      if N.eqb x y then startswith_within s' p' else Some false
  end.

(** Number of places of [a] where [pat] starts, whatever follows [a];
    [None] when that depends on what follows. *)
Fixpoint occurrences_within (pat a : str) : option nat :=
  match a with
  | [] => Some 0
  | _ :: r =>
      match startswith_within a pat, occurrences_within pat r with
      | Some b, Some n => Some ((if b then 1 else 0) + n)
      | _, _ => None
      end
  end.

(** A character that is none of [<], [>], the double and the single
    quote. *)
Definition plain_char (c : char) : bool :=
  negb (N.eqb c 60 || N.eqb c 62 || N.eqb c 34 || N.eqb c 39).

(** A character other than [<]. *)
Definition not_lt (x : char) : bool := negb (N.eqb 60 x).

(** The text of one item of the feed. *)
Definition item_block (title link description pub_date : str) : str :=
  py "  <item>\n"
  ++ (py "    <title>" ++ title ++ py "</title>\n")
  ++ (py "    <link>" ++ link ++ py "</link>\n")
  ++ (py "    <description>" ++ description ++ py "</description>\n")
  ++ (py "    <pubDate>" ++ pub_date ++ py "</pubDate>\n")
  ++ (py "    <guid isPermaLink=\x22true\x22>" ++ link ++ py "</guid>\n")
  ++ py "  </item>\n".

(** The document up to the items, built at clock reading [t]. *)
Definition channel_head (t : datetime) : str :=
  py "<?xml version=\x221.0\x22 encoding=\x22UTF-8\x22 ?>\n"
  ++ py "<rss version=\x222.0\x22 xmlns:atom=\x22http://www.w3.org/2005/Atom\x22>\n"
  ++ py "<channel>\n"
  ++ py "  <title>Orange News - Commentaries</title>\n"
  ++ py "  <link>https://www.orangenews.hk/html/topic/index.html</link>\n"
  ++ py "  <description>Latest commentaries from Orange News HK</description>\n"
  ++ py "  <language>zh-cn</language>\n"
  ++ py "  <atom:link href=\x22https://totrphbm.manus.space/feed.xml\x22 rel=\x22self\x22 type=\x22application/rss+xml\x22 />\n"
  ++ py "  <lastBuildDate>" ++ strftime t rfc822 ++ py "</lastBuildDate>\n".

Definition channel_foot : str := py "</channel>\n</rss>\n".

(** Whether the publication date of an article comes from the clock: the
    field is missing or empty, or [strptime] raises on it. *)
Definition falls_back (article : dict) : bool :=
  match get (py "pubDate") article with
  | Some s =>
      if truthy s then
        match strptime_ymd s with inl _ => true | inr _ => false end
      else true
  | None => true
  end.

(** The publication stamp of an article rendered after [k] clock reads. *)
Definition pub_date_of (utcnow : nat -> datetime) (article : dict) (k : nat)
  : str :=
  match get (py "pubDate") article with
  | Some s =>
      match strptime_ymd s with
      | inr dt => if truthy s then strftime (replace_noon_utc dt) rfc822
                  else strftime (utcnow k) rfc822
      | inl _ => strftime (utcnow k) rfc822
      end
  | None => strftime (utcnow k) rfc822
  end.

(** The items of a list of articles, the first rendered after [k] clock
    reads. *)
Fixpoint item_blocks (utcnow : nat -> datetime) (articles : list dict)
  (k : nat) : list str :=
  match articles with
  | [] => []
  | a :: rest =>
      let title := escape (get_default (py "title") a (py "No Title")) in
      let link := escape (get_default (py "link") a (py "#")) in
      item_block title link
                 (escape (get_default (py "description") a title))
                 (pub_date_of utcnow a k)
        :: item_blocks utcnow rest (if falls_back a then S k else k)
  end.

(** *** Decoding of character references *)

Definition hex_digit (c : char) : option N :=
  if ((48 <=? c) && (c <=? 57))%N then Some (c - 48)%N
  else if ((97 <=? c) && (c <=? 102))%N then Some (c - 87)%N
  else if ((65 <=? c) && (c <=? 70))%N then Some (c - 55)%N
  else None.

Definition parse_number (base : N) (s : str) : option N :=
  match s with
  | [] => None
  | _ =>
      fold_left
        (fun acc c =>
           match acc, hex_digit c with
           | Some a, Some v =>
               if (v <? base)%N then Some (base * a + v)%N else None
           | _, _ => None
           end) s (Some 0%N)
  end.

(** The character a reference [&name;] stands for: the five predefined
    entities of XML and the numeric references. *)
Definition decode_reference (name : str) : option char :=
  if eqb name (py "amp") then Some 38%N
  else if eqb name (py "lt") then Some 60%N
  else if eqb name (py "gt") then Some 62%N
  else if eqb name (py "quot") then Some 34%N
  else if eqb name (py "apos") then Some 39%N
  else match name with
       | 35%N :: 120%N :: h => parse_number 16 h
       | 35%N :: d => parse_number 10 d
       | _ => None
       end.

(** The reader of character data: [ref] is [None] outside a reference
    and holds the name read so far, last character first, inside one.
    A bare [<], an unknown reference or an unfinished one is an error. *)
Fixpoint unescape_from (ref : option str) (s : str) : option str :=
  match s with
  | [] => match ref with None => Some [] | Some _ => None end
  | c :: r =>
      match ref with
      | None =>
          if N.eqb c 38 then unescape_from (Some []) r
          else if N.eqb c 60 then None
          else option_map (cons c) (unescape_from None r)
      | Some acc =>
          if N.eqb c 59 then
            match decode_reference (rev acc) with
            | Some x => option_map (cons x) (unescape_from None r)
            | None => None
            end
          else unescape_from (Some (c :: acc)) r
      end
  end.

Definition unescape (s : str) : option str := unescape_from None s.

(** The replacement [html.escape] makes for one character. *)
Definition escape_char (c : char) : str :=
  if N.eqb c 38 then py "&amp;"
  else if N.eqb c 60 then py "&lt;"
  else if N.eqb c 62 then py "&gt;"
  else if N.eqb c 34 then py "&quot;"
  else if N.eqb c 39 then py "&#x27;"
  else [c].

(** ** Sample inputs *)

(** Checks that let every host pass. *)
Definition lenient_checks : netloc_checks :=
  {| check_bracketed_netloc := fun _ => true;
     checknetloc_nfkc := fun _ => true |}.

(** A clock that reads 7 June 2025, a second later at each read. *)
Definition sample_clock (tz : option tz) (k : nat) : datetime :=
  {| year := 2025; month := 6; day := 7;
     hour := 8; minute := 30; second := k; tzinfo := tz |}.

(** [<a href=...>text</a>] *)
Definition anchor (href text : string) : node :=
  Tag (py "a") [(py "href", py href)] [Text NavigableString (py text)].

(** A page with two articles, the first dated by its paragraph, a
    placeholder link, a navigation link, a link with too short a text, a
    duplicate of the first article and a link without [href]. *)
Definition sample_page : list node :=
  [ Tag (py "div") []
      [ Tag (py "p") []
          [ anchor "/n/1.html" " First <story> & more ";
            Text NavigableString (py " 2024-03-15 ") ];
        anchor "#" "Placeholder link";
        anchor "/n/2.html" "\u9996\u9801";
        anchor "/n/3.html" "abc" ] ;
    Tag (py "ul") []
      [ Tag (py "li") [] [ anchor "/n/4.html" "Second story" ];
        Tag (py "li") [] [ anchor "/n/1.html" "First story again" ];
        Tag (py "li") []
          [ Tag (py "a") [] [Text NavigableString (py "No target at all")] ] ] ].

(** A page whose only link has an empty [href]. *)
Definition empty_href_page : list node :=
  [ Tag (py "p") [] [ anchor EmptyString "Hello world" ] ].

(** A page whose only link is a relative path that begins with the
    letters [http]. *)
Definition http_path_page : list node :=
  [ Tag (py "p") [] [ anchor "httpx/a.html" "Hello world" ] ].

(** A page with two articles of distinct links and a placeholder. *)
Definition two_article_page : list node :=
  [ Tag (py "div") []
      [ anchor "/n/1.html" "First story";
        anchor "#" "Placeholder link";
        anchor "https://example.org/b" "Second story" ] ].

Definition sample_markup : option str := Some (py "<html>").

Definition sample_links : list element :=
  enumerated_links (fun _ => sample_page) sample_markup.

Definition no_link : element := {| parents := []; self := Text Comment [] |}.

(** What the extractor returns on the sample page. *)
Definition sample_records : list dict :=
  [ record (py "First <story> & more")
           (py "https://www.orangenews.hk/n/1.html") (py "2024-03-15");
    record (py "Second story")
           (py "https://www.orangenews.hk/n/4.html") (py "2024-03-15") ].

(** ** The program around the two functions *)

Definition TOPIC_URL : str :=
  py "https://www.orangenews.hk/html/topic/index.html".

Definition USER_AGENT : str :=
  py "Mozilla/5.0 (Windows NT 10.0; Win64; x64) AppleWebKit/537.36 (KHTML, like Gecko) Chrome/91.0.4472.124 Safari/537.36".

(** What the program does to the world, in the order it does it. *)
Inductive event :=
| Print (line : str)
| Get (url : str) (headers : dict) (timeout : nat)
| Open (path : str)
| Write (path content : str).

(** The part of a [requests] response the program looks at. *)
Record Response := {
  status_code : nat; reason : str; response_url : str; text : str
}.

(** [response.raise_for_status()]: the message of the [HTTPError] it
    raises, if it raises. *)
Definition raise_for_status (r : Response) : option str :=
  if (400 <=? status_code r) && (status_code r <? 500) then
    Some (dec (status_code r) ++ py " Client Error: " ++ reason r
          ++ py " for url: " ++ response_url r)
  else if (500 <=? status_code r) && (status_code r <? 600) then
    Some (dec (status_code r) ++ py " Server Error: " ++ reason r
          ++ py " for url: " ++ response_url r)
  else None.

(** How a run of [main] ends: with the value it returns, or with an
    exception nobody catches. *)
Inductive finished :=
| Exit (code : nat)
| Uncaught (e : exn)
| UncaughtUnicodeEncodeError.

(** A text the [utf-8] codec can encode: one with no surrogate. *)
Definition encodable (s : str) : bool :=
  forallb (fun c => negb ((55296 <=? c) && (c <=? 57343))%N) s.

Section Program.

Variable checks : netloc_checks.
Variable html_parser : str -> list node.
Variable now : nat -> datetime.
Variable utcnow : nat -> datetime.

(** [requests.get(url, headers=headers, timeout=timeout)]: the response,
    or the text of the [RequestException] raised. *)
Variable requests_get : str -> dict -> nat -> str + Response.

(** [open(path, 'w', encoding='utf-8')] and the writing and closing of
    the file: each the text of the [IOError] raised, if any. *)
Variable open_w : str -> option str.
Variable write_text : str -> str -> option str.

Definition fetch_page (url : str) : list event * option str :=
  let headers :=
    [ (py "User-Agent", USER_AGENT);
      (py "Accept-Language", py "zh-HK,zh;q=0.9,en-US;q=0.8,en;q=0.7") ] in
  match requests_get url headers 30 with
  | inr response =>
      match raise_for_status response with
      | None => ([Get url headers 30], Some (text response))
      | Some e =>
          ([Get url headers 30;
            Print (py "Error fetching " ++ url ++ py ": " ++ e)], None)
      end
  | inl e =>
      ([Get url headers 30;
        Print (py "Error fetching " ++ url ++ py ": " ++ e)], None)
  end.

(** [main()], with [output] the value of the [--output] option. *)
Definition main (output : str) : list event * finished :=
  let out := [Print (py "Fetching articles from " ++ TOPIC_URL ++ py "...")] in
  let (fetched, html_content) := fetch_page TOPIC_URL in
  let out := out ++ fetched in
  if match html_content with Some c => negb (truthy c) | None => true end
  then (out ++ [Print (py "Failed to fetch content. Exiting.")], Exit 1)
  else
    let out := out ++ [Print (py "Extracting articles...")] in
    match extract_articles checks html_parser now html_content 0 with
    | Raised e => (out, Uncaught e)
    | Returned articles k =>
        match articles with
        | [] => (out ++ [Print (py "No articles found. Exiting.")], Exit 1)
        | _ :: _ =>
            let out := out
              ++ [Print (py "Found " ++ dec (length articles)
                         ++ py " articles.");
                  Print (py "Generating RSS XML...")] in
            match generate_rss_xml utcnow articles k with
            | Raised e => (out, Uncaught e)
            | Returned rss_content _ =>
                let out := out
                  ++ [Print (py "Writing RSS feed to " ++ output
                             ++ py "...")] in
                match open_w output with
                | Some e =>
                    (out ++ [Print (py "Error writing RSS feed: " ++ e)],
                     Exit 1)
                | None =>
                    let out := out ++ [Open output] in
                    if encodable rss_content then
                      match write_text output rss_content with
                      | None =>
                          (out ++ [Write output rss_content;
                                   Print (py "RSS feed successfully updated at "
                                          ++ output)],
                           Exit 0)
                      | Some e =>
                          (out ++ [Print (py "Error writing RSS feed: "
                                          ++ e)],
                           Exit 1)
                      end
                    else (out, UncaughtUnicodeEncodeError)
                end
            end
        end
    end.

End Program.

(** ** Further vocabulary *)

(** A link none of whose five nearest parents shows a date. *)
Definition undated (link : element) : bool :=
  match first_date (firstn 5 (parents link)) with
  | Some _ => false
  | None => true
  end.

(** Whether an event touches the output file. *)
Definition touches_file (e : event) : bool :=
  match e with
  | Open _ | Write _ _ => true
  | Print _ | Get _ _ _ => false
  end.

(** Whether an event writes text to a file. *)
Definition writes (e : event) : bool :=
  match e with
  | Write _ _ => true
  | Print _ | Get _ _ _ | Open _ => false
  end.

(** A text with one of the characters [html.escape] replaces. *)
Definition has_special (s : str) : bool :=
  existsb (fun c => N.eqb c 38 || N.eqb c 60 || N.eqb c 62
                    || N.eqb c 34 || N.eqb c 39) s.

(** The date of a clock reading, as [strptime] returns it. *)
Definition midnight (t : datetime) : datetime :=
  {| year := year t; month := month t; day := day t;
     hour := 0; minute := 0; second := 0; tzinfo := None |}.

(** A network where every request times out, one that answers 404 and
    one that serves a page. *)
Definition network_down : str -> dict -> nat -> str + Response :=
  fun _ _ _ => inl (py "timed out").

Definition network_404 : str -> dict -> nat -> str + Response :=
  fun url _ _ =>
    inr {| status_code := 404; reason := py "Not Found";
           response_url := url; text := py "<html>gone</html>" |}.


(** A clock that agrees with the sample clock on its first two reads
    and stands still afterwards. *)
Definition stopping_clock (k : nat) : datetime :=
  sample_clock (Some utc) (Nat.min k 1).

(** Records of which the second has a pubDate that does not parse. *)
Definition undated_records : list dict :=
  [ record (py "First story") (py "https://www.orangenews.hk/n/1.html")
           (py "2024-03-15");
    record (py "Second story") (py "https://www.orangenews.hk/n/4.html")
           (py "soon") ].

(** A record with a title and a link only. *)
Definition bare_record : dict :=
  [ (py "title", py "Fish & chips");
    (py "link", py "https://www.orangenews.hk/n/9.html") ].



(** * Properties *)

(** ** Strings *)

Lemma eqb_eq (a b : str) : eqb a b = true <-> a = b.
Proof.
  unfold eqb. destruct (list_eq_dec N.eq_dec a b); split; congruence.
Qed.

Lemma eqb_refl (a : str) : eqb a a = true.
Proof. now apply eqb_eq. Qed.

Lemma eqb_neq (a b : str) : eqb a b = false <-> a <> b.
Proof.
  unfold eqb. destruct (list_eq_dec N.eq_dec a b); split; congruence.
Qed.

Lemma truthy_length (s : str) : truthy s = true <-> 0 < length s.
Proof. destruct s; simpl; split; intros; try lia; congruence. Qed.

Lemma lstrip_by_split f s :
  exists p, s = p ++ lstrip_by f s /\ forallb f p = true.
Proof.
  induction s as [|c r IH]; simpl.
  - now exists [].
  - destruct (f c) eqn:E.
    + destruct IH as (p & Hp & Hf). exists (c :: p). simpl.
      rewrite E, Hf. split; [now f_equal | reflexivity].
    + now exists [].
Qed.

Lemma lstrip_by_head f s :
  match lstrip_by f s with [] => True | c :: _ => f c = false end.
Proof.
  induction s as [|c r IH]; simpl; [exact I|].
  destruct (f c) eqn:E; [exact IH | exact E].
Qed.

Lemma lstrip_by_id f s :
  match s with [] => True | c :: _ => f c = false end -> lstrip_by f s = s.
Proof. destruct s; simpl; [reflexivity | now intros ->]. Qed.

Lemma lstrip_by_idem f s : lstrip_by f (lstrip_by f s) = lstrip_by f s.
Proof. apply lstrip_by_id, lstrip_by_head. Qed.

Lemma strip_by_idem f s : strip_by f (strip_by f s) = strip_by f s.
Proof.
  unfold strip_by, rstrip_by.
  set (a := lstrip_by f s).
  pose proof (lstrip_by_head f s) as Ha. fold a in Ha.
  destruct (lstrip_by_split f (rev a)) as (p & Hp & _).
  set (b := lstrip_by f (rev a)) in *.
  assert (Hb : lstrip_by f b = b) by apply lstrip_by_idem.
  assert (E : lstrip_by f (rev b) = rev b).
  { apply lstrip_by_id.
    assert (Ha' : a = rev b ++ rev p).
    { rewrite <- rev_app_distr, <- Hp. now rewrite rev_involutive. }
    destruct (rev b) as [|c t]; [exact I|].
    rewrite Ha' in Ha. exact Ha. }
  rewrite E, rev_involutive, Hb. reflexivity.
Qed.

Lemma strip_idem s : strip (strip s) = strip s.
Proof. apply strip_by_idem. Qed.

Lemma strip_nil : strip [] = [].
Proof. reflexivity. Qed.

(** ** The date pattern *)

Lemma date_at_firstn s : date_at s = true -> is_date (firstn 10 s) = true.
Proof.
  unfold is_date.
  do 10 (destruct s as [|? s]; [discriminate|]).
  simpl. intros H. exact H.
Qed.

Lemma re_search_date_is_date text d :
  re_search_date text = Some d -> is_date d = true.
Proof.
  revert d. induction text as [|c r IH]; intros d; [discriminate|].
  cbn [re_search_date]. destruct (date_at (c :: r)) eqn:E.
  - intros [= <-]. exact (date_at_firstn (c :: r) E).
  - apply IH.
Qed.

Lemma is_date_truthy d : is_date d = true -> truthy d = true.
Proof.
  unfold is_date. destruct d; [discriminate | reflexivity].
Qed.

Lemma search_parents_first_date ps n :
  search_parents ps n = first_date (firstn (5 - n) ps).
Proof.
  revert n. induction ps as [|p up IH]; intros n.
  - now rewrite firstn_nil.
  - cbn [search_parents]. destruct (n <? 5) eqn:E.
    + apply Nat.ltb_lt in E.
      replace (5 - n) with (S (5 - S n)) by lia.
      rewrite firstn_cons. unfold first_date. cbn [first_some].
      destruct (re_search_date (get_text p)); [reflexivity|].
      apply IH.
    + apply Nat.ltb_ge in E. replace (5 - n) with 0 by lia. reflexivity.
Qed.

(** ** Decimal digits and [strftime] *)

(** Literals above 5000 are kept folded; [lia] wants them as products. *)
Ltac small_literals := change 9999 with (9 * 1111) in *.

Lemma isdigit_digit_char n : n < 10 -> isdigit (digit_char n) = true.
Proof.
  intros H. do 10 (destruct n as [|n]; [reflexivity|]). lia.
Qed.

Lemma dec_aux_step f n acc :
  dec_aux (S f) n acc =
  if n / 10 =? 0 then digit_char (n mod 10) :: acc
  else dec_aux f (n / 10) (digit_char (n mod 10) :: acc).
Proof. reflexivity. Qed.

Lemma dec_one n : n < 10 -> dec n = [digit_char n].
Proof.
  intros H. unfold dec. rewrite dec_aux_step.
  rewrite (Nat.div_small n 10), (Nat.mod_small n 10) by lia. reflexivity.
Qed.

Lemma dec_two n :
  10 <= n < 100 -> dec n = [digit_char (n / 10); digit_char (n mod 10)].
Proof.
  intros H. unfold dec. rewrite dec_aux_step.
  assert (H1 : 1 <= n / 10 < 10).
  { split; [apply Nat.div_le_lower_bound | apply Nat.Div0.div_lt_upper_bound]; lia. }
  destruct (n / 10 =? 0) eqn:E; [apply Nat.eqb_eq in E; lia|].
  destruct n as [|m]; [lia|]. rewrite dec_aux_step.
  rewrite (Nat.div_small (S m / 10) 10), (Nat.mod_small (S m / 10) 10) by lia.
  reflexivity.
Qed.

Lemma dec_four n :
  1000 <= n <= 9999 ->
  dec n = [digit_char (n / 1000); digit_char (n / 100 mod 10);
           digit_char (n / 10 mod 10); digit_char (n mod 10)].
Proof.
  intros H. small_literals. unfold dec.
  assert (H1 : 100 <= n / 10 < 1000).
  { split; [apply Nat.div_le_lower_bound | apply Nat.Div0.div_lt_upper_bound]; lia. }
  assert (H2 : 10 <= n / 10 / 10 < 100).
  { split; [apply Nat.div_le_lower_bound | apply Nat.Div0.div_lt_upper_bound]; lia. }
  assert (H3 : 1 <= n / 10 / 10 / 10 < 10).
  { split; [apply Nat.div_le_lower_bound | apply Nat.Div0.div_lt_upper_bound]; lia. }
  do 4 (destruct n as [|n]; [lia|]).
  remember (S (S (S (S n)))) as m eqn:Hm.
  rewrite dec_aux_step.
  destruct (m / 10 =? 0) eqn:E1; [apply Nat.eqb_eq in E1; lia|].
  rewrite Hm at 1. rewrite dec_aux_step.
  destruct (m / 10 / 10 =? 0) eqn:E2; [apply Nat.eqb_eq in E2; lia|].
  rewrite dec_aux_step.
  destruct (m / 10 / 10 / 10 =? 0) eqn:E3; [apply Nat.eqb_eq in E3; lia|].
  rewrite dec_aux_step.
  rewrite (Nat.div_small (m / 10 / 10 / 10) 10) by lia.
  cbn [Nat.eqb].
  rewrite (Nat.mod_small (m / 10 / 10 / 10) 10) by lia.
  rewrite !Nat.Div0.div_div. reflexivity.
Qed.

Lemma dec2_two n :
  n < 100 -> exists a b, a < 10 /\ b < 10 /\
                         dec2 n = [digit_char a; digit_char b].
Proof.
  intros H. unfold dec2. destruct (n <? 10) eqn:E.
  - apply Nat.ltb_lt in E. rewrite dec_one by lia.
    exists 0, n. repeat split; lia.
  - apply Nat.ltb_ge in E. rewrite dec_two by lia.
    exists (n / 10), (n mod 10). repeat split.
    + apply Nat.Div0.div_lt_upper_bound; lia.
    + apply Nat.mod_upper_bound; lia.
Qed.

Lemma strftime_ymd t :
  strftime t (py "%Y-%m-%d") =
  dec (year t) ++ hyphen :: dec2 (month t) ++ hyphen :: dec2 (day t).
Proof.
  change (strftime t (py "%Y-%m-%d"))
    with (dec (year t) ++ hyphen :: dec2 (month t) ++ hyphen
            :: dec2 (day t) ++ []).
  now rewrite app_nil_r.
Qed.

Lemma strftime_ymd_truthy t : truthy (strftime t (py "%Y-%m-%d")) = true.
Proof.
  rewrite strftime_ymd. destruct (dec (year t)); reflexivity.
Qed.

Lemma today_is_date now k :
  four_digit_year (now k) -> is_date (today now k) = true.
Proof.
  intros (Hy & Hm & Hd). unfold today. rewrite strftime_ymd.
  rewrite dec_four by exact Hy. small_literals.
  destruct (dec2_two (month (now k))) as (a & b & Ha & Hb & ->); [lia|].
  destruct (dec2_two (day (now k))) as (c & d & Hc & Hd' & ->); [lia|].
  unfold is_date. cbn [app length Nat.eqb andb date_at].
  rewrite !isdigit_digit_char; try assumption; try reflexivity.
  all: try (apply Nat.mod_upper_bound; lia).
  apply Nat.Div0.div_lt_upper_bound; lia.
Qed.

(** ** urllib.parse *)

Section UrllibFacts.

Variable checks : netloc_checks.

Lemma urlparse_base :
  urlparse checks BASE_URL [] =
  inr {| scheme := py "https"; netloc := py "www.orangenews.hk";
         path := []; params := []; query := []; fragment := [] |}.
Proof. reflexivity. Qed.

Lemma urlunsplit_scheme sch n u q f :
  truthy sch = true -> exists r, urlunsplit sch n u q f = sch ++ 58%N :: r.
Proof.
  intros H. unfold urlunsplit. rewrite H.
  change (py ":") with [58%N].
  repeat match goal with
         | |- context [if ?c then _ else _] => destruct c
         end;
    rewrite <- ?app_assoc; cbn [app]; eexists; reflexivity.
Qed.

(** A reference resolved against the base URL is never empty and never
    the bare [#]. *)
Lemma urljoin_base_stored href u :
  truthy href = true -> eqb href (py "#") = false ->
  urljoin checks BASE_URL href = inr u ->
  truthy u = true /\ eqb u (py "#") = false.
Proof.
  intros Ht Hh. unfold urljoin. rewrite urlparse_base, Ht.
  change (negb (truthy BASE_URL)) with false. cbn [negb].
  cbn [scheme netloc path params query fragment].
  destruct (urlparse checks href (py "https")) as [e|p]; [discriminate|].
  destruct (negb (eqb (scheme p) (py "https"))
            || negb (mem (scheme p) uses_relative)) eqn:E.
  { intros [= <-]. now split. }
  apply orb_false_iff in E. destruct E as (E & _).
  apply negb_false_iff, eqb_eq in E.
  assert (K : forall n x ps q f,
             truthy (urlunparse (scheme p) n x ps q f) = true
             /\ eqb (urlunparse (scheme p) n x ps q f) (py "#") = false).
  { intros. unfold urlunparse. cbv zeta. rewrite E.
    match goal with
    | |- context [urlunsplit ?a ?b ?c ?d ?e] =>
        destruct (urlunsplit_scheme a b c d e eq_refl) as [r ->]
    end.
    split; [reflexivity|]. now apply eqb_neq. }
  repeat match goal with
         | |- context [if ?c then _ else _] => destruct c
         end; intros [= <-]; apply K.
Qed.

(** A reference whose scheme is not the base's comes back unchanged. *)
Lemma urlsplit_scheme url dflt r :
  urlsplit checks url dflt = inr r ->
  match url_scheme url with
  | Some s => sr_scheme r = s
  | None => True
  end.
Proof.
  unfold urlsplit, url_scheme.
  set (u := replace 10 [] (replace 13 [] (replace 9 []
              (lstrip_by c0_control_or_space url)))).
  set (d := replace 10 [] (replace 13 [] (replace 9 []
              (strip_by c0_control_or_space dflt)))).
  destruct (find_char 58 u) as [[|i]|]; try (intros; exact I).
  destruct u as [|c0 u']; [intros; exact I|].
  destruct ((c0 <? 128)%N && ascii_alpha c0
            && forallb scheme_chars (firstn (S i) (c0 :: u')));
    [|intros; exact I].
  repeat match goal with
         | |- context [let '(_, _) := ?c in _] => destruct c
         | |- context [if ?c then _ else _] => destruct c
         | |- context [match ?c with Some _ => _ | None => _ end] => destruct c
         end; try discriminate; intros [= <-]; reflexivity.
Qed.

Lemma urljoin_other_scheme href s u :
  truthy href = true ->
  url_scheme href = Some s -> s <> py "https" ->
  urljoin checks BASE_URL href = inr u -> u = href.
Proof.
  intros Ht Hs Hn. unfold urljoin. rewrite urlparse_base, Ht.
  change (negb (truthy BASE_URL)) with false. cbn [negb].
  cbn [scheme netloc path params query fragment].
  unfold urlparse.
  destruct (urlsplit checks href (py "https")) as [e|r] eqn:E;
    [discriminate|].
  apply urlsplit_scheme in E. rewrite Hs in E.
  destruct (if mem (sr_scheme r) uses_params && has 59 (sr_path r)
            then splitparams (sr_path r) else (sr_path r, [])) as [x ps].
  cbn [scheme]. rewrite E.
  apply eqb_neq in Hn. rewrite Hn. cbn [negb orb].
  now intros [= <-].
Qed.

End UrllibFacts.

(** ** The loop over the links *)

Lemma any_link_spec u arts k :
  Forall (fun a => has_link a = true) arts ->
  any_link u arts k = Returned (existsb (links_to u) arts) k.
Proof.
  induction 1 as [|a r Ha _ IH]; [reflexivity|].
  cbn [any_link existsb]. unfold bind, subscript, links_to at 1.
  unfold has_link in Ha.
  destruct (get (py "link") a) as [l|]; [|discriminate].
  unfold ret at 1. destruct (eqb l u); [reflexivity | exact IH].
Qed.

Lemma get_link_record t u d : get (py "link") (record t u d) = Some u.
Proof. reflexivity. Qed.

Lemma has_link_record t u d : has_link (record t u d) = true.
Proof. reflexivity. Qed.

Lemma existsb_links_to u t d arts :
  existsb (links_to u) arts
  = existsb (fun e => same_link e (record t u d)) arts.
Proof.
  induction arts as [|a r IH]; [reflexivity|].
  cbn [existsb]. now rewrite IH.
Qed.

Lemma first_date_is_date ps d : first_date ps = Some d -> is_date d = true.
Proof.
  unfold first_date. induction ps as [|p r IH]; [discriminate|].
  cbn [first_some].
  destruct (re_search_date (get_text p)) eqn:E.
  - intros [= <-]. eapply re_search_date_is_date, E.
  - exact IH.
Qed.

(** ** First occurrences *)

Lemma same_link_trans a b c :
  same_link a b = true -> same_link b c = true -> same_link a c = true.
Proof.
  unfold same_link.
  destruct (get (py "link") a), (get (py "link") b), (get (py "link") c);
    try discriminate.
  rewrite !eqb_eq. congruence.
Qed.

Lemma same_link_has_link a b :
  has_link a = true -> get (py "link") a = get (py "link") b ->
  same_link a b = true.
Proof.
  unfold has_link, same_link. intros Ha <-.
  destruct (get (py "link") a); [apply eqb_refl | discriminate].
Qed.

Lemma keep_first_app e a b :
  keep_first e (a ++ b) = keep_first e a ++ keep_first (e ++ a) b.
Proof.
  revert e. induction a as [|c r IH]; intros e.
  - now rewrite app_nil_r.
  - cbn [app keep_first]. rewrite IH, <- !app_assoc. reflexivity.
Qed.

Lemma keep_first_incl e cs x : In x (keep_first e cs) -> In x cs.
Proof.
  revert e. induction cs as [|c r IH]; intros e; [easy|].
  cbn [keep_first]. intros H. apply in_app_or in H. destruct H as [H|H].
  - destruct (existsb (fun y => same_link y c) e); [easy|].
    destruct H as [<-|[]]. now left.
  - right. eapply IH, H.
Qed.

Lemma existsb_keep_first c e prev :
  existsb (fun x => same_link x c) (e ++ keep_first e prev)
  = existsb (fun x => same_link x c) (e ++ prev).
Proof.
  revert e. induction prev as [|p r IH]; intros e; [reflexivity|].
  cbn [keep_first]. specialize (IH (e ++ [p])).
  rewrite <- !app_assoc in IH. cbn [app] in IH.
  destruct (existsb (fun y => same_link y p) e) eqn:E;
    cbn [app]; [|exact IH].
  rewrite !existsb_app in *. cbn [existsb] in *.
  destruct (same_link p c) eqn:Epc.
  - assert (A : existsb (fun x => same_link x c) e = true).
    { apply existsb_exists in E. destruct E as (y & Hy & Hyp).
      apply existsb_exists. exists y. split; [exact Hy|].
      eapply same_link_trans; eassumption. }
    now rewrite A.
  - cbn [orb] in *. exact IH.
Qed.

Lemma fold_add_unique cs prev :
  fold_left add_unique cs (keep_first [] prev) = keep_first [] (prev ++ cs).
Proof.
  revert prev. induction cs as [|c r IH]; intros prev.
  - now rewrite app_nil_r.
  - cbn [fold_left].
    replace (prev ++ c :: r) with ((prev ++ [c]) ++ r)
      by now rewrite <- app_assoc.
    rewrite <- IH. f_equal.
    rewrite keep_first_app. cbn [keep_first app]. rewrite app_nil_r.
    unfold add_unique.
    pose proof (existsb_keep_first c [] prev) as K. cbn [app] in K.
    rewrite K.
    destruct (existsb (fun x => same_link x c) prev);
      [now rewrite app_nil_r | reflexivity].
Qed.

Lemma keep_first_fresh e cs x :
  In x (keep_first e cs) -> existsb (fun y => same_link y x) e = false.
Proof.
  revert e. induction cs as [|c r IH]; intros e; [easy|].
  cbn [keep_first]. intros H. apply in_app_or in H. destruct H as [H|H].
  - destruct (existsb (fun y => same_link y c) e) eqn:E; [easy|].
    destruct H as [<-|[]]. exact E.
  - apply IH in H. rewrite existsb_app in H.
    now apply orb_false_iff in H.
Qed.

Lemma keep_first_nodup e cs :
  Forall (fun a => has_link a = true) cs ->
  NoDup (map (get (py "link")) (keep_first e cs)).
Proof.
  intros H. revert e. induction H as [|c r Hc _ IH]; intros e.
  - constructor.
  - cbn [keep_first].
    destruct (existsb (fun y => same_link y c) e); cbn [app map];
      [apply IH|].
    constructor; [|apply IH].
    intros Hin. apply in_map_iff in Hin. destruct Hin as (x & Hx & Hin).
    apply keep_first_fresh in Hin. rewrite existsb_app in Hin.
    apply orb_false_iff in Hin. destruct Hin as (_ & Hin).
    cbn [existsb] in Hin. rewrite orb_false_r in Hin.
    now rewrite (same_link_has_link c x Hc (eq_sym Hx)) in Hin.
Qed.

Lemma same_link_eq a b :
  same_link a b = true -> get (py "link") a = get (py "link") b.
Proof.
  unfold same_link.
  destruct (get (py "link") a), (get (py "link") b); try discriminate.
  rewrite eqb_eq. congruence.
Qed.

Lemma keep_first_all e cs :
  NoDup (map (get (py "link")) cs) ->
  (forall c, In c cs -> existsb (fun y => same_link y c) e = false) ->
  keep_first e cs = cs.
Proof.
  revert e. induction cs as [|c r IH]; intros e Hn He; [reflexivity|].
  cbn [keep_first]. rewrite (He c) by now left. cbn [app]. f_equal.
  inversion Hn as [|? ? Hc Hr]; subst. apply IH; [exact Hr|].
  intros x Hx. rewrite existsb_app, (He x) by now right.
  cbn [existsb orb]. rewrite orb_false_r.
  destruct (same_link c x) eqn:E; [|reflexivity].
  exfalso. apply Hc. apply same_link_eq in E.
  apply in_map_iff. exists x. split; [symmetry; exact E | exact Hx].
Qed.

Section ExtractorFacts.

Variable checks : netloc_checks.
Variable html_parser : str -> list node.
Variable now : nat -> datetime.

Lemma normalize_url_stored href u :
  truthy href = true -> eqb href (py "#") = false ->
  normalize_url checks href = inr u ->
  truthy u = true /\ eqb u (py "#") = false.
Proof.
  intros Ht Hh. unfold normalize_url.
  destruct (startswith href (py "http")).
  - intros [= <-]. now split.
  - now apply urljoin_base_stored.
Qed.

Lemma truthy_strip s : truthy (strip s) = true -> truthy s = true.
Proof. now destruct s. Qed.

(** A link that does not qualify leaves the list and the clock alone. *)
Lemma loop_body_skip link arts k :
  qualifying link = false -> loop_body checks now link arts k = Returned arts k.
Proof.
  intros Hq. unfold loop_body.
  change (strip (get_text (self link))) with (title_of link).
  change (get (py "href") (attrs_of (self link))) with (href_of link).
  unfold qualifying in Hq.
  destruct (get_text (self link)) as [|c0 text] eqn:Etext; [reflexivity|].
  cbn [truthy negb orb].
  destruct (mem (title_of link) navigation_labels); [reflexivity|].
  destruct (length (title_of link) <? 5) eqn:Elen; [reflexivity|].
  apply Nat.ltb_ge in Elen.
  replace (truthy (title_of link)) with true in Hq
    by (symmetry; apply truthy_length; lia).
  replace (5 <=? length (title_of link)) with true in Hq
    by (symmetry; now apply Nat.leb_le).
  cbn [negb andb] in Hq.
  destruct (href_of link) as [href|]; [|reflexivity].
  replace (negb (truthy href) || eqb href (py "#")) with true;
    [reflexivity|].
  destruct (truthy href), (eqb href (py "#")); try reflexivity.
  discriminate.
Qed.

(** One turn of the loop is the candidate of the link, added unless its
    link is already listed. *)
Lemma loop_body_candidate link arts k :
  Forall (fun a => has_link a = true) arts ->
  loop_body checks now link arts k =
  match candidate checks now link k with
  | Returned (Some c) k' => Returned (add_unique arts c) k'
  | Returned None k' => Returned arts k'
  | Raised e => Raised e
  end.
Proof.
  intros Harts. unfold loop_body, candidate.
  change (strip (get_text (self link))) with (title_of link).
  change (get (py "href") (attrs_of (self link))) with (href_of link).
  destruct (qualifying link) eqn:Hq.
  - unfold qualifying in Hq.
    destruct (href_of link) as [href|] eqn:Eh;
      [|now rewrite andb_false_r in Hq].
    repeat (apply andb_true_iff in Hq; destruct Hq as (Hq & ?)).
    match goal with
    | H : truthy href && _ = true |- _ =>
        apply andb_true_iff in H; destruct H as (Hhref & Hhash)
    end.
    repeat match goal with
           | H : negb _ = true |- _ => apply negb_true_iff in H
           end.
    assert (Hlen : (length (title_of link) <? 5) = false)
      by (apply Nat.ltb_ge; now apply Nat.leb_le).
    assert (Htext : truthy (get_text (self link)) = true)
      by now apply truthy_strip.
    repeat match goal with
           | H : _ = _ |- _ => rewrite H
           end.
    cbn [negb orb]. unfold bind, ret, lift, raise, read_clock.
    assert (Hu : forall u, normalize_url checks href = inr u ->
                           truthy u = true).
    { intros u E. now destruct (normalize_url_stored href u Hhref Hhash E). }
    unfold normalize_url in *.
    destruct (startswith href (py "http")); cbn [negb];
      [|destruct (urljoin checks BASE_URL href) as [e|u] eqn:Eu;
        [reflexivity|]];
      rewrite (search_parents_first_date (parents link) 0);
      change (5 - 0) with 5;
      (destruct (first_date (firstn 5 (parents link))) as [d|] eqn:Ed;
       [ assert (Hd : truthy d = true)
           by (eapply is_date_truthy, first_date_is_date, Ed);
         rewrite Hd
       | ]);
      cbv beta iota delta [ret];
      rewrite ?(Hu _ eq_refl), ?Hd, ?strftime_ymd_truthy;
      cbn [andb]; cbv beta iota;
      rewrite any_link_spec by exact Harts;
      unfold add_unique;
      match goal with
      | |- context [existsb (fun e => same_link e (record ?t ?u ?d)) arts] =>
          change (existsb (fun e => same_link e (record t u d)) arts)
            with (existsb (links_to u) arts);
          destruct (existsb (links_to u) arts); reflexivity
      end.
  - now apply loop_body_skip.
Qed.

Lemma candidate_skip link k :
  qualifying link = false -> candidate checks now link k = Returned None k.
Proof. intros H. unfold candidate. now rewrite H. Qed.

Lemma candidate_inv link k c k' :
  candidate checks now link k = Returned (Some c) k' ->
  exists href u d,
    qualifying link = true /\ href_of link = Some href
    /\ normalize_url checks href = inr u
    /\ c = record (title_of link) u d
    /\ ((first_date (firstn 5 (parents link)) = Some d /\ k' = k)
        \/ (first_date (firstn 5 (parents link)) = None
            /\ d = today now k /\ k' = S k)).
Proof.
  unfold candidate. destruct (qualifying link); [|discriminate].
  destruct (href_of link) as [href|]; [|discriminate].
  unfold bind, lift, ret, raise, read_clock.
  destruct (normalize_url checks href) as [e|u] eqn:Eu; [discriminate|].
  destruct (first_date (firstn 5 (parents link))) as [d|].
  - intros [= <- <-]. exists href, u, d.
    repeat (split; [first [reflexivity | exact Eu]|]). left. now split.
  - intros [= <- <-]. exists href, u, (today now k).
    repeat (split; [first [reflexivity | exact Eu]|]). right.
    now repeat split.
Qed.

Lemma candidate_none_inv link k k' :
  candidate checks now link k = Returned None k' ->
  qualifying link = false /\ k' = k.
Proof.
  unfold candidate, bind, lift, ret, raise, read_clock.
  destruct (qualifying link) eqn:Hq; [|now intros [= <-]].
  unfold qualifying in Hq.
  destruct (href_of link) as [href|];
    [|now rewrite andb_false_r in Hq].
  destruct (normalize_url checks href) as [e|u]; [discriminate|].
  destruct (first_date (firstn 5 (parents link))); discriminate.
Qed.

Lemma candidate_ok link k href u :
  qualifying link = true -> href_of link = Some href ->
  normalize_url checks href = inr u ->
  exists d k', candidate checks now link k
               = Returned (Some (record (title_of link) u d)) k'.
Proof.
  intros Hq Hh Hu. unfold candidate. rewrite Hq, Hh.
  unfold bind, lift, ret, raise, read_clock. rewrite Hu.
  destruct (first_date (firstn 5 (parents link))) as [d|];
    eexists; eexists; reflexivity.
Qed.

Lemma candidate_has_link link k c k' :
  candidate checks now link k = Returned (Some c) k' -> has_link c = true.
Proof.
  intros H. apply candidate_inv in H.
  destruct H as (href & u & d & _ & _ & _ & -> & _). reflexivity.
Qed.

Lemma add_unique_has_link arts c :
  Forall (fun a => has_link a = true) arts -> has_link c = true ->
  Forall (fun a => has_link a = true) (add_unique arts c).
Proof.
  intros Ha Hc. unfold add_unique.
  destruct (existsb (fun e => same_link e c) arts); [exact Ha|].
  apply Forall_app. split; [exact Ha | now constructor].
Qed.

(** The loop is the sequence of candidates, each added unless its link
    is already listed. *)
Lemma for_links_candidates links arts k :
  Forall (fun a => has_link a = true) arts ->
  for_links checks now links arts k =
  match candidates checks now links k with
  | Returned cs k' => Returned (fold_left add_unique cs arts) k'
  | Raised e => Raised e
  end.
Proof.
  revert arts k. induction links as [|link rest IH]; intros arts k Ha.
  - reflexivity.
  - cbn [for_links candidates]. unfold bind at 1 2.
    rewrite loop_body_candidate by exact Ha.
    destruct (candidate checks now link k) as [[c|] k1|e] eqn:Ec.
    + rewrite IH.
      * unfold bind. destruct (candidates checks now rest k1); reflexivity.
      * apply add_unique_has_link; [exact Ha|].
        eapply candidate_has_link, Ec.
    + rewrite IH by exact Ha.
      unfold bind. destruct (candidates checks now rest k1); reflexivity.
    + reflexivity.
Qed.

Lemma candidates_has_link links k cs k' :
  candidates checks now links k = Returned cs k' ->
  Forall (fun a => has_link a = true) cs.
Proof.
  revert k cs k'. induction links as [|link rest IH]; intros k cs k'.
  - intros [= <- <-]. constructor.
  - cbn [candidates]. unfold bind.
    destruct (candidate checks now link k) as [[c|] k1|e] eqn:Ec;
      [| |discriminate];
      destruct (candidates checks now rest k1) as [cs1 k2|e] eqn:Er;
      try discriminate; unfold ret; intros [= <- <-].
    + constructor; [eapply candidate_has_link, Ec | eapply IH, Er].
    + eapply IH, Er.
Qed.

End ExtractorFacts.

(** ** The extractor as a whole *)

Section ExtractorNormalForm.

Variable checks : netloc_checks.
Variable html_parser : str -> list node.
Variable now : nat -> datetime.

Lemma extract_articles_enumerated html_content k :
  extract_articles checks html_parser now html_content k
  = for_links checks now (enumerated_links html_parser html_content) [] k.
Proof.
  unfold extract_articles, enumerated_links.
  destruct html_content as [markup|]; [|reflexivity].
  now destruct (negb (truthy markup)).
Qed.

(** The output is the sequence of candidates with every later duplicate
    of a link left out. *)
Lemma extract_articles_keep_first html_content k :
  extract_articles checks html_parser now html_content k =
  match candidates checks now (enumerated_links html_parser html_content) k
  with
  | Returned cs k' => Returned (keep_first [] cs) k'
  | Raised e => Raised e
  end.
Proof.
  rewrite extract_articles_enumerated, for_links_candidates
    by constructor.
  destruct (candidates checks now _ k) as [cs k'|e]; [|reflexivity].
  f_equal. exact (fold_add_unique cs []).
Qed.

Lemma for_links_app a b arts k :
  for_links checks now (a ++ b) arts k
  = bind (for_links checks now a arts) (for_links checks now b) k.
Proof.
  revert arts k. induction a as [|l r IH]; intros arts k; [reflexivity|].
  cbn [app for_links]. unfold bind at 1 2 3.
  destruct (loop_body checks now l arts k) as [arts' k'|e]; [|reflexivity].
  apply IH.
Qed.

Lemma candidates_resolved links urls k :
  map (resolved_href checks) (filter qualifying links) = map Some urls ->
  exists cs k',
    candidates checks now links k = Returned cs k'
    /\ map (get (py "link")) cs = map Some urls
    /\ map (get (py "title")) cs
       = map (fun l => Some (title_of l)) (filter qualifying links).
Proof.
  revert urls k. induction links as [|link rest IH]; intros urls k H.
  - destruct urls; [|discriminate]. exists [], k. now repeat split.
  - cbn [filter] in *. cbn [candidates]. unfold bind.
    destruct (qualifying link) eqn:Hq.
    + destruct urls as [|u urls]; [discriminate|].
      cbn [map] in H. injection H as Hu Hrest.
      unfold resolved_href in Hu.
      destruct (href_of link) as [href|] eqn:Eh; [|discriminate].
      destruct (normalize_url checks href) as [e|u'] eqn:En;
        [discriminate|].
      injection Hu as ->.
      destruct (candidate_ok checks now link k href u Hq Eh En)
        as (d & k1 & ->).
      destruct (IH urls k1 Hrest) as (cs & k2 & -> & Hl & Ht).
      exists (record (title_of link) u d :: cs), k2.
      unfold ret. cbn [map]. rewrite Hl, Ht. now repeat split.
    + rewrite candidate_skip by exact Hq.
      destruct (IH urls k H) as (cs & k2 & -> & Hl & Ht).
      exists cs, k2. now repeat split.
Qed.

(** Every candidate comes from a link of the list, at some reading of
    the clock. *)
Lemma candidates_origin links k cs k' :
  candidates checks now links k = Returned cs k' ->
  Forall (fun c => exists link j j',
              In link links
              /\ candidate checks now link j = Returned (Some c) j') cs.
Proof.
  revert k cs k'. induction links as [|link rest IH]; intros k cs k'.
  - intros [= <- <-]. constructor.
  - cbn [candidates]. unfold bind.
    destruct (candidate checks now link k) as [[c|] k1|e] eqn:Ec;
      [| |discriminate];
      destruct (candidates checks now rest k1) as [cs1 k2|e] eqn:Er;
      try discriminate; unfold ret; intros [= <- <-];
      specialize (IH _ _ _ Er);
      assert (IH' : Forall (fun c => exists link0 j j',
                       In link0 (link :: rest)
                       /\ candidate checks now link0 j
                          = Returned (Some c) j') cs1)
        by (eapply Forall_impl; [|exact IH];
            intros a (l0 & j & j' & Hin & Hc);
            exists l0, j, j'; split; [now right | exact Hc]).
    + constructor; [|exact IH'].
      exists link, k, k1. split; [now left | exact Ec].
    + exact IH'.
Qed.

End ExtractorNormalForm.

(** ** The leftmost match of the date pattern *)

Lemma re_search_date_spec text :
  match re_search_date text with
  | Some d =>
      exists pre post,
        text = pre ++ d ++ post /\ is_date d = true
        /\ forall j, j < length pre -> date_at (skipn j text) = false
  | None => forall j, date_at (skipn j text) = false
  end.
Proof.
  induction text as [|c r IH].
  - cbn [re_search_date]. intros j. now destruct j.
  - cbn [re_search_date]. destruct (date_at (c :: r)) eqn:E.
    + exists [], (skipn 10 (c :: r)). split; [|split].
      * cbn [app]. now rewrite firstn_skipn.
      * now apply date_at_firstn.
      * cbn [length]. intros j Hj. lia.
    + destruct (re_search_date r) as [d|].
      * destruct IH as (pre & post & -> & Hd & Hpre).
        exists (c :: pre), post. split; [reflexivity|]. split; [exact Hd|].
        intros [|j] Hj; [exact E|]. cbn [skipn]. apply Hpre.
        cbn [length] in Hj. lia.
      * intros [|j]; [exact E | apply IH].
Qed.

Lemma nth_error_firstn_Some {A} n (l : list A) i x :
  nth_error (firstn n l) i = Some x <-> i < n /\ nth_error l i = Some x.
Proof.
  revert n i. induction l as [|a r IH]; intros n i.
  - rewrite firstn_nil. destruct i; cbn; split; try easy; now intros [].
  - destruct n as [|n]; [cbn; destruct i; split; try easy; intros []; lia|].
    destruct i as [|i]; cbn [firstn nth_error].
    + split; [intros ->; split; [lia | reflexivity] | now intros []].
    + rewrite IH. split; intros []; split; try assumption; lia.
Qed.

Lemma first_date_spec ps :
  match first_date ps with
  | Some d =>
      exists i p,
        nth_error ps i = Some p /\ re_search_date (get_text p) = Some d
        /\ forall j q, j < i -> nth_error ps j = Some q ->
                       re_search_date (get_text q) = None
  | None =>
      forall i p, nth_error ps i = Some p ->
                  re_search_date (get_text p) = None
  end.
Proof.
  unfold first_date. induction ps as [|p r IH]; cbn [first_some].
  - intros [|i] q; discriminate.
  - destruct (re_search_date (get_text p)) as [d|] eqn:E.
    + exists 0, p. repeat split; [exact E|]. intros j q Hj. lia.
    + destruct (first_some _ r) as [d|].
      * destruct IH as (i & q & Hq & Hd & Hbefore).
        exists (S i), q. repeat split; [exact Hq | exact Hd|].
        intros [|j] q' Hj; cbn [nth_error].
        -- now intros [= <-].
        -- apply Hbefore. lia.
      * intros [|i] q; cbn [nth_error]; [now intros [= <-] | apply IH].
Qed.

(** ** Properties of the extractor *)

Lemma disqualified_not_qualifying link :
  disqualified link = true -> qualifying link = false.
Proof.
  unfold disqualified, qualifying. intros H.
  destruct (length (title_of link) <? 5) eqn:E.
  - apply Nat.ltb_lt in E.
    replace (5 <=? length (title_of link)) with false
      by (symmetry; apply Nat.leb_gt; lia).
    now rewrite andb_false_r.
  - destruct (mem (title_of link) navigation_labels).
    + now rewrite andb_false_r.
    + cbn [orb] in H. destruct (href_of link) as [href|].
      * rewrite H. now rewrite !andb_false_r.
      * now rewrite andb_false_r.
Qed.

Lemma NoDup_map_Some {A} (l : list A) : NoDup l -> NoDup (map Some l).
Proof.
  induction 1 as [|x l Hx _ IH]; cbn [map]; constructor; [|exact IH].
  intros Hin. apply in_map_iff in Hin. destruct Hin as (y & [= ->] & Hy).
  now apply Hx.
Qed.

Lemma earliest_with_link cands c :
  In c cands ->
  exists pre first post,
    cands = pre ++ first :: post
    /\ get (py "link") first = get (py "link") c
    /\ forall e, In e pre -> get (py "link") e <> get (py "link") c.
Proof.
  induction cands as [|a r IH]; [easy|]. intros Hin.
  assert (D : {get (py "link") a = get (py "link") c}
              + {get (py "link") a <> get (py "link") c}).
  { decide equality. apply (list_eq_dec N.eq_dec). }
  destruct D as [E|E].
  - exists [], a, r. repeat split; [exact E | easy].
  - destruct Hin as [->|Hin]; [congruence|].
    destruct (IH Hin) as (pre & first & post & -> & Hf & Hpre).
    exists (a :: pre), first, post. repeat split; [exact Hf|].
    intros e [<-|He]; [exact E | now apply Hpre].
Qed.

Lemma keep_first_earliest pre first post :
  (forall e, In e pre -> get (py "link") e <> get (py "link") first) ->
  In first (keep_first [] (pre ++ first :: post)).
Proof.
  intros H. rewrite keep_first_app. apply in_or_app. right.
  cbn [keep_first app].
  replace (existsb (fun e => same_link e first) pre) with false.
  - now left.
  - symmetry. apply not_true_is_false. intros E.
    apply existsb_exists in E. destruct E as (e & He & Hs).
    apply (H e He). now apply same_link_eq.
Qed.

Section ExtractorClaims.

Variable checks : netloc_checks.
Variable html_parser : str -> list node.
Variable now : nat -> datetime.

(** C1, as amended.  When the qualifying links of the input (non-empty
    trimmed text that is no navigation label and has at least five
    characters, an href that is present, not empty and not [#]) resolve
    to pairwise distinct links, [extract_articles] returns exactly one
    record for each of them, in the document order of the links: the
    links and the titles of the records are those of the qualifying
    links, one after the other. *)
Theorem extract_articles_one_record_per_qualifying_link
  html_content urls k :
  map (resolved_href checks)
      (filter qualifying (enumerated_links html_parser html_content))
  = map Some urls ->
  NoDup urls ->
  exists recs k',
    extract_articles checks html_parser now html_content k
    = Returned recs k'
    /\ length recs
       = length (filter qualifying
                        (enumerated_links html_parser html_content))
    /\ map (get (py "link")) recs = map Some urls
    /\ map (get (py "title")) recs
       = map (fun l => Some (title_of l))
             (filter qualifying
                     (enumerated_links html_parser html_content)).
Proof.
  intros Hres Hnd. rewrite extract_articles_keep_first.
  destruct (candidates_resolved checks now _ urls k Hres)
    as (cs & k' & -> & Hl & Ht).
  exists (keep_first [] cs), k'.
  assert (E : keep_first [] cs = cs).
  { apply keep_first_all; [|easy].
    rewrite Hl. now apply NoDup_map_Some. }
  rewrite E. repeat split; try assumption.
  transitivity (length (map (get (py "title")) cs));
    [symmetry; apply length_map | rewrite Ht; apply length_map].
Qed.

(** C2.  A link whose trimmed text has fewer than five characters, or is
    a navigation label, or whose href is absent or is [#], contributes no
    record: its turn of the loop leaves the list of records (and the
    clock) as they were, whatever they are, so that the output is the one
    of the run over the other links. *)
Theorem disqualified_link_contributes_nothing
  html_content before link after :
  enumerated_links html_parser html_content = before ++ link :: after ->
  disqualified link = true ->
  (forall arts k, loop_body checks now link arts k = Returned arts k)
  /\ (forall k,
        extract_articles checks html_parser now html_content k
        = for_links checks now (before ++ after) [] k).
Proof.
  intros Hsplit Hd. apply disqualified_not_qualifying in Hd.
  split.
  - intros arts k. now apply loop_body_skip.
  - intros k. rewrite extract_articles_enumerated, Hsplit.
    rewrite !for_links_app. unfold bind.
    destruct (for_links checks now before [] k) as [arts k'|e];
      [|reflexivity].
    cbn [for_links]. unfold bind. now rewrite loop_body_skip.
Qed.

(** C3.  The links of the records returned are pairwise distinct, and the
    records are the candidates (the records of the links that pass the
    filters, in document order) without those that an earlier candidate
    shares its link with: for every candidate the output holds a record
    with its link, and that record is the earliest candidate with this
    link. *)
Theorem extract_articles_keeps_first_of_each_link
  html_content k recs k' :
  extract_articles checks html_parser now html_content k
  = Returned recs k' ->
  NoDup (map (get (py "link")) recs)
  /\ exists cands,
       candidates checks now (enumerated_links html_parser html_content) k
       = Returned cands k'
       /\ recs = keep_first [] cands
       /\ forall c, In c cands ->
            exists pre first post,
              cands = pre ++ first :: post
              /\ get (py "link") first = get (py "link") c
              /\ (forall e, In e pre ->
                            get (py "link") e <> get (py "link") c)
              /\ In first recs.
Proof.
  rewrite extract_articles_keep_first.
  destruct (candidates checks now _ k) as [cs k1|e] eqn:Ec; [|discriminate].
  intros [= <- <-]. split.
  - eapply keep_first_nodup, candidates_has_link, Ec.
  - exists cs. repeat split.
    intros c Hc.
    destruct (earliest_with_link cs c Hc) as (pre & first & post & E & Hf & Hp).
    exists pre, first, post. repeat split; try assumption.
    rewrite E. apply keep_first_earliest.
    intros e He. rewrite Hf. now apply Hp.
Qed.

(** C4.  When a turn of the loop adds a record, its pubDate is found by
    looking at no more than the five nearest parents of the link, the
    immediate one first: it is the leftmost match of the date pattern in
    the text of the first of them that has a match, and no clock is read;
    when none of them has a match it is the local date of the clock at
    that moment, written as year-month-day. *)
Theorem pubDate_from_nearest_parents_or_today link arts k arts' k' :
  Forall (fun a => has_link a = true) arts ->
  loop_body checks now link arts k = Returned arts' k' ->
  arts' <> arts ->
  exists a date,
    arts' = arts ++ [a] /\ get (py "pubDate") a = Some date
    /\ ((exists i p pre post,
           i < 5 /\ nth_error (parents link) i = Some p
           /\ (forall j q, j < i -> nth_error (parents link) j = Some q ->
                 forall n, date_at (skipn n (get_text q)) = false)
           /\ get_text p = pre ++ date ++ post
           /\ is_date date = true
           /\ (forall n, n < length pre ->
                         date_at (skipn n (get_text p)) = false)
           /\ k' = k)
        \/ ((forall i p, i < 5 -> nth_error (parents link) i = Some p ->
               forall n, date_at (skipn n (get_text p)) = false)
            /\ date = strftime (now k) (py "%Y-%m-%d")
            /\ k' = S k)).
Proof.
  intros Ha H Hne. rewrite loop_body_candidate in H by exact Ha.
  destruct (candidate checks now link k) as [[c|] k1|e] eqn:Ec;
    [| injection H as <- _; congruence | discriminate].
  injection H as <- <-. unfold add_unique in *.
  destruct (existsb (fun e => same_link e c) arts); [congruence|].
  apply candidate_inv in Ec.
  destruct Ec as (href & u & d & _ & _ & _ & -> & Hd).
  exists (record (title_of link) u d), d.
  split; [reflexivity|]. split; [reflexivity|].
  destruct Hd as [(Hd & ->)|(Hd & -> & ->)].
  - left. pose proof (first_date_spec (firstn 5 (parents link))) as S.
    rewrite Hd in S. destruct S as (i & p & Hp & Hs & Hbefore).
    apply nth_error_firstn_Some in Hp. destruct Hp as (Hi & Hp).
    pose proof (re_search_date_spec (get_text p)) as R.
    rewrite Hs in R. destruct R as (pre & post & Htext & Hdate & Hpre).
    exists i, p, pre, post. repeat split; try assumption.
    intros j q Hj Hq.
    assert (Hn : re_search_date (get_text q) = None).
    { apply (Hbefore j q Hj). apply nth_error_firstn_Some. split; [lia|easy]. }
    pose proof (re_search_date_spec (get_text q)) as R.
    now rewrite Hn in R.
  - right. repeat split.
    intros i p Hi Hp.
    pose proof (first_date_spec (firstn 5 (parents link))) as S.
    rewrite Hd in S.
    assert (Hn : re_search_date (get_text p) = None).
    { apply (S i p). now apply nth_error_firstn_Some. }
    pose proof (re_search_date_spec (get_text p)) as R.
    now rewrite Hn in R.
Qed.

(** C5, as amended.  When a turn of the loop adds a record, the stored
    link is the href itself when the href begins with the letters
    [http], and otherwise the href resolved against the base URL by
    [urljoin]; an href with a scheme other than [https] is stored
    unchanged either way. *)
Theorem stored_link_is_href_or_urljoin link arts k arts' k' :
  Forall (fun a => has_link a = true) arts ->
  loop_body checks now link arts k = Returned arts' k' ->
  arts' <> arts ->
  exists href a,
    href_of link = Some href /\ arts' = arts ++ [a]
    /\ (startswith href (py "http") = true ->
        get (py "link") a = Some href)
    /\ (startswith href (py "http") = false ->
        exists u, urljoin checks BASE_URL href = inr u
                  /\ get (py "link") a = Some u)
    /\ (forall s, url_scheme href = Some s -> s <> py "https" ->
                  get (py "link") a = Some href).
Proof.
  intros Ha H Hne. rewrite loop_body_candidate in H by exact Ha.
  destruct (candidate checks now link k) as [[c|] k1|e] eqn:Ec;
    [| injection H as <- _; congruence | discriminate].
  injection H as <- <-. unfold add_unique in *.
  destruct (existsb (fun e => same_link e c) arts); [congruence|].
  apply candidate_inv in Ec.
  destruct Ec as (href & u & d & Hq & Hh & Hn & -> & _).
  exists href, (record (title_of link) u d).
  split; [exact Hh|]. split; [reflexivity|].
  rewrite get_link_record. unfold normalize_url in Hn.
  unfold qualifying in Hq. rewrite Hh in Hq.
  assert (Ht : truthy href = true).
  { apply andb_true_iff in Hq. destruct Hq as (_ & Hq).
    now apply andb_true_iff in Hq. }
  destruct (startswith href (py "http")) eqn:Es.
  - injection Hn as ->. repeat split; easy.
  - repeat split; [discriminate | intros _; now exists u |].
    intros s Hs Hne'. f_equal.
    eapply urljoin_other_scheme; eassumption.
Qed.

(** C10.  With a clock that reads four-digit years, every record returned
    has the four fields title, link, pubDate and description, where the
    title is trimmed and has at least five characters, the link is
    neither empty nor [#], the description is the title, and the pubDate
    is one match of the date pattern. *)
Theorem extract_articles_record_invariant html_content k recs k' :
  (forall j, four_digit_year (now j)) ->
  extract_articles checks html_parser now html_content k
  = Returned recs k' ->
  Forall (fun a =>
            exists title link date,
              a = [ (py "title", title); (py "link", link);
                    (py "pubDate", date); (py "description", title) ]
              /\ strip title = title /\ 5 <= length title
              /\ truthy link = true /\ link <> py "#"
              /\ is_date date = true) recs.
Proof.
  intros Hclock. rewrite extract_articles_keep_first.
  destruct (candidates checks now _ k) as [cs k1|e] eqn:Ec; [|discriminate].
  intros [= <- <-]. apply Forall_forall. intros a Hin.
  apply keep_first_incl in Hin.
  pose proof (candidates_origin checks now _ _ _ _ Ec) as Ho.
  rewrite Forall_forall in Ho.
  destruct (Ho a Hin) as (link & j & j' & _ & Hc).
  apply candidate_inv in Hc.
  destruct Hc as (href & u & d & Hq & Hh & Hn & -> & Hd).
  exists (title_of link), u, d. split; [reflexivity|].
  unfold qualifying in Hq. rewrite Hh in Hq.
  repeat (apply andb_true_iff in Hq; destruct Hq as (Hq & ?)).
  match goal with
  | H : truthy href && _ = true |- _ =>
      apply andb_true_iff in H; destruct H as (Hhref & Hhash)
  end.
  apply negb_true_iff in Hhash.
  destruct (normalize_url_stored checks href u Hhref Hhash Hn) as (Hu & Hu').
  split; [apply strip_idem|]. split; [now apply Nat.leb_le|].
  split; [exact Hu|]. split; [now apply eqb_neq|].
  destruct Hd as [(Hd & _)|(_ & -> & _)].
  - eapply first_date_is_date, Hd.
  - apply today_is_date, Hclock.
Qed.

End ExtractorClaims.

(** ** The extractor on the sample pages *)

Lemma sample_clock_four_digit_year tz j : four_digit_year (sample_clock tz j).
Proof.
  unfold four_digit_year, sample_clock. cbn [year month day].
  repeat split; apply Nat.leb_le; reflexivity.
Defined.

Lemma extract_articles_one_record_per_qualifying_link_witness :
  exists recs k',
    extract_articles lenient_checks (fun _ => two_article_page)
                     (sample_clock None) sample_markup 0
    = Returned recs k'
    /\ length recs
       = length (filter qualifying
                   (enumerated_links (fun _ => two_article_page)
                                     sample_markup))
    /\ map (get (py "link")) recs
       = map Some [ py "https://www.orangenews.hk/n/1.html";
                    py "https://example.org/b" ]
    /\ map (get (py "title")) recs
       = map (fun l => Some (title_of l))
             (filter qualifying
                (enumerated_links (fun _ => two_article_page)
                                  sample_markup)).
Proof.
  apply (extract_articles_one_record_per_qualifying_link
           lenient_checks (fun _ => two_article_page) (sample_clock None)
           sample_markup
           [ py "https://www.orangenews.hk/n/1.html";
             py "https://example.org/b" ] 0).
  - vm_compute. reflexivity.
  - constructor.
    + intros [H|[]]. vm_compute in H. discriminate H.
    + constructor; [intros [] | constructor].
Defined.

(** C1, as stated, fails on a link with an empty href: the link
    qualifies in the words of the claim (its href is present and is not
    [#]) and no other link shares its resolved href, yet no record is
    returned. *)
Lemma empty_href_link_is_dropped :
  length (filter qualifying_as_stated
            (enumerated_links (fun _ => empty_href_page) sample_markup)) = 1
  /\ map (resolved_href lenient_checks)
         (filter qualifying_as_stated
            (enumerated_links (fun _ => empty_href_page) sample_markup))
     = [Some BASE_URL]
  /\ extract_articles lenient_checks (fun _ => empty_href_page)
                      (sample_clock None) sample_markup 0
     = Returned [] 0.
Proof. vm_compute. repeat split. Qed.

Lemma disqualified_link_contributes_nothing_witness :
  disqualified (nth 1 sample_links no_link) = true
  /\ (forall arts k,
        loop_body lenient_checks (sample_clock None)
                  (nth 1 sample_links no_link) arts k
        = Returned arts k)
  /\ (forall k,
        extract_articles lenient_checks (fun _ => sample_page)
                         (sample_clock None) sample_markup k
        = for_links lenient_checks (sample_clock None)
                    (firstn 1 sample_links ++ skipn 2 sample_links) [] k).
Proof.
  split; [vm_compute; reflexivity|].
  apply (disqualified_link_contributes_nothing
           lenient_checks (fun _ => sample_page) (sample_clock None)
           sample_markup (firstn 1 sample_links)
           (nth 1 sample_links no_link) (skipn 2 sample_links)).
  - vm_compute. reflexivity.
  - vm_compute. reflexivity.
Defined.

Lemma extract_articles_keeps_first_of_each_link_witness :
  NoDup (map (get (py "link")) sample_records)
  /\ exists cands,
       candidates lenient_checks (sample_clock None)
                  (enumerated_links (fun _ => sample_page) sample_markup) 0
       = Returned cands 0
       /\ sample_records = keep_first [] cands
       /\ forall c, In c cands ->
            exists pre first post,
              cands = pre ++ first :: post
              /\ get (py "link") first = get (py "link") c
              /\ (forall e, In e pre ->
                            get (py "link") e <> get (py "link") c)
              /\ In first sample_records.
Proof.
  apply (extract_articles_keeps_first_of_each_link
           lenient_checks (fun _ => sample_page) (sample_clock None)
           sample_markup 0 sample_records 0).
  vm_compute. reflexivity.
Defined.

Lemma pubDate_from_nearest_parents_or_today_witness :
  exists a date,
    [record (py "Hello world") (py "httpx/a.html") (py "2025-06-07")]
    = [] ++ [a]
    /\ get (py "pubDate") a = Some date
    /\ ((exists i p pre post,
           i < 5
           /\ nth_error
                (parents (nth 0 (enumerated_links (fun _ => http_path_page)
                                                  sample_markup) no_link))
                i = Some p
           /\ (forall j q, j < i ->
                 nth_error
                   (parents (nth 0 (enumerated_links
                                      (fun _ => http_path_page)
                                      sample_markup) no_link)) j = Some q ->
                 forall n, date_at (skipn n (get_text q)) = false)
           /\ get_text p = pre ++ date ++ post
           /\ is_date date = true
           /\ (forall n, n < length pre ->
                         date_at (skipn n (get_text p)) = false)
           /\ 1 = 0)
        \/ ((forall i p, i < 5 ->
               nth_error
                 (parents (nth 0 (enumerated_links (fun _ => http_path_page)
                                                   sample_markup) no_link))
                 i = Some p ->
               forall n, date_at (skipn n (get_text p)) = false)
            /\ date = strftime (sample_clock None 0) (py "%Y-%m-%d")
            /\ 1 = 1)).
Proof.
  apply (pubDate_from_nearest_parents_or_today
           lenient_checks (sample_clock None)
           (nth 0 (enumerated_links (fun _ => http_path_page) sample_markup)
                no_link)
           [] 0
           [record (py "Hello world") (py "httpx/a.html") (py "2025-06-07")]
           1).
  - constructor.
  - vm_compute. reflexivity.
  - discriminate.
Defined.

Lemma stored_link_is_href_or_urljoin_witness :
  exists href a,
    href_of (nth 0 sample_links no_link) = Some href
    /\ [record (py "First <story> & more")
               (py "https://www.orangenews.hk/n/1.html") (py "2024-03-15")]
       = [] ++ [a]
    /\ (startswith href (py "http") = true ->
        get (py "link") a = Some href)
    /\ (startswith href (py "http") = false ->
        exists u, urljoin lenient_checks BASE_URL href = inr u
                  /\ get (py "link") a = Some u)
    /\ (forall s, url_scheme href = Some s -> s <> py "https" ->
                  get (py "link") a = Some href).
Proof.
  apply (stored_link_is_href_or_urljoin
           lenient_checks (sample_clock None)
           (nth 0 sample_links no_link) [] 0
           [record (py "First <story> & more")
                   (py "https://www.orangenews.hk/n/1.html")
                   (py "2024-03-15")] 0).
  - constructor.
  - vm_compute. reflexivity.
  - discriminate.
Defined.

(** C5, as stated, fails on a relative path that begins with the letters
    [http]: the href has no scheme, its resolution against the base URL
    is another text, and the href is stored as it is. *)
Lemma http_path_is_not_resolved :
  url_scheme (py "httpx/a.html") = None
  /\ urljoin lenient_checks BASE_URL (py "httpx/a.html")
     = inr (py "https://www.orangenews.hk/httpx/a.html")
  /\ extract_articles lenient_checks (fun _ => http_path_page)
                      (sample_clock None) sample_markup 0
     = Returned [record (py "Hello world") (py "httpx/a.html")
                        (py "2025-06-07")] 1.
Proof. vm_compute. repeat split. Qed.

Lemma extract_articles_record_invariant_witness :
  Forall (fun a =>
            exists title link date,
              a = [ (py "title", title); (py "link", link);
                    (py "pubDate", date); (py "description", title) ]
              /\ strip title = title /\ 5 <= length title
              /\ truthy link = true /\ link <> py "#"
              /\ is_date date = true) sample_records.
Proof.
  apply (extract_articles_record_invariant
           lenient_checks (fun _ => sample_page) (sample_clock None)
           sample_markup 0 sample_records 0).
  - intros j. apply sample_clock_four_digit_year.
  - vm_compute. reflexivity.
Defined.

(** ** Escaping *)

Lemma flat_map_flat_map {A B C} (f : A -> list B) (g : B -> list C) l :
  flat_map g (flat_map f l) = flat_map (fun x => flat_map g (f x)) l.
Proof.
  induction l as [|a r IH]; [reflexivity|].
  cbn [flat_map]. now rewrite flat_map_app, IH.
Qed.

Lemma escape_char_spec c :
  replace 39 (py "&#x27;")
    (replace 34 (py "&quot;")
       (replace 62 (py "&gt;")
          (replace 60 (py "&lt;")
             (if N.eqb c 38 then py "&amp;" else [c]))))
  = escape_char c.
Proof.
  unfold escape_char.
  destruct (N.eqb_spec c 38) as [->|_]; [reflexivity|].
  unfold replace. cbn [flat_map app].
  destruct (N.eqb_spec c 60) as [->|_]; [reflexivity|].
  cbn [flat_map app].
  destruct (N.eqb_spec c 62) as [->|_]; [reflexivity|].
  cbn [flat_map app].
  destruct (N.eqb_spec c 34) as [->|_]; [reflexivity|].
  cbn [flat_map app].
  destruct (N.eqb_spec c 39) as [->|_]; reflexivity.
Qed.

(** The five replacements of [html.escape], made one after the other,
    amount to one replacement per character. *)
Lemma escape_flat_map s : escape s = flat_map escape_char s.
Proof.
  unfold escape. unfold replace at 5.
  unfold replace at 4. rewrite flat_map_flat_map.
  unfold replace at 3. rewrite flat_map_flat_map.
  unfold replace at 2. rewrite flat_map_flat_map.
  unfold replace at 1. rewrite flat_map_flat_map.
  apply flat_map_ext. intros c. apply escape_char_spec.
Qed.

Lemma unescape_escape_char c rest :
  unescape_from None (escape_char c ++ rest)
  = option_map (cons c) (unescape_from None rest).
Proof.
  unfold escape_char.
  destruct (N.eqb_spec c 38) as [->|H38]; [reflexivity|].
  destruct (N.eqb_spec c 60) as [->|H60]; [reflexivity|].
  destruct (N.eqb_spec c 62) as [->|_]; [reflexivity|].
  destruct (N.eqb_spec c 34) as [->|_]; [reflexivity|].
  destruct (N.eqb_spec c 39) as [->|_]; [reflexivity|].
  cbn [app unescape_from].
  apply N.eqb_neq in H38, H60. now rewrite H38, H60.
Qed.

(** Decoding the references of an escaped text gives the text back. *)
Lemma unescape_escape s : unescape (escape s) = Some s.
Proof.
  rewrite escape_flat_map. unfold unescape.
  induction s as [|c r IH]; [reflexivity|].
  cbn [flat_map]. rewrite unescape_escape_char, IH. reflexivity.
Qed.

Lemma escape_char_plain c : forallb plain_char (escape_char c) = true.
Proof.
  unfold escape_char.
  destruct (N.eqb_spec c 38) as [->|_]; [reflexivity|].
  destruct (N.eqb c 60) eqn:E60; [reflexivity|].
  destruct (N.eqb c 62) eqn:E62; [reflexivity|].
  destruct (N.eqb c 34) eqn:E34; [reflexivity|].
  destruct (N.eqb c 39) eqn:E39; [reflexivity|].
  cbn [forallb]. unfold plain_char. now rewrite E60, E62, E34, E39.
Qed.

(** An escaped text holds no [<], [>] or quote. *)
Lemma escape_plain s : forallb plain_char (escape s) = true.
Proof.
  rewrite escape_flat_map. induction s as [|c r IH]; [reflexivity|].
  cbn [flat_map]. now rewrite forallb_app, escape_char_plain, IH.
Qed.

(** ** The renderer *)

Lemma strptime_ymd_truthy s dt : strptime_ymd s = inr dt -> truthy s = true.
Proof. now destruct s. Qed.

(** [strptime] raises nothing but [ValueError]. *)
Lemma strptime_ymd_raises s e : strptime_ymd s = inl e -> e = ValueError.
Proof.
  unfold strptime_ymd.
  destruct (match_ymd s) as [[[[y m] d] [|c r]]|]; try now intros [= <-].
  destruct ((1 <=? y) && (y <=? 9999) && (1 <=? m) && (m <=? 12)
            && (1 <=? d) && (d <=? days_in_month y m));
    [discriminate | now intros [= <-]].
Qed.

(** The stamp of a parsed date: its day of the week, the date, noon and
    the offset of UTC. *)
Lemma strftime_noon_utc dt :
  strftime (replace_noon_utc dt) rfc822 =
  nth (weekday dt) day_abbr [] ++ py ", " ++ dec2 (day dt) ++ py " "
  ++ nth (month dt - 1) month_abbr [] ++ py " " ++ dec (year dt)
  ++ py " 12:00:00 +0000".
Proof. reflexivity. Qed.

Section RendererFacts.

Variable utcnow : nat -> datetime.

Lemma render_item_spec a rss k :
  render_item utcnow a rss k =
  Returned
    (rss
     ++ item_block
          (escape (get_default (py "title") a (py "No Title")))
          (escape (get_default (py "link") a (py "#")))
          (escape (get_default (py "description") a
                     (escape (get_default (py "title") a (py "No Title")))))
          (pub_date_of utcnow a k))
    (if falls_back a then S k else k).
Proof.
  unfold render_item, pub_date_of, falls_back, bind, now_rfc822,
    try_except_ValueError, read_clock, ret, item_block.
  destruct (get (py "pubDate") a) as [s|]; [|reflexivity].
  destruct (strptime_ymd s) as [e|dt] eqn:E.
  - apply strptime_ymd_raises in E. subst e.
    now destruct (truthy s).
  - rewrite (strptime_ymd_truthy s dt E). reflexivity.
Qed.

Lemma for_articles_spec arts rss k :
  for_articles utcnow arts rss k =
  Returned (rss ++ concat (item_blocks utcnow arts k))
           (k + length (filter falls_back arts)).
Proof.
  revert rss k. induction arts as [|a r IH]; intros rss k.
  - cbn. now rewrite app_nil_r, Nat.add_0_r.
  - cbn [for_articles item_blocks filter concat]. unfold bind.
    rewrite render_item_spec, IH, <- app_assoc. f_equal.
    destruct (falls_back a); cbn [length]; lia.
Qed.

(** The document is the head of the channel, one item for each article
    in turn, and the foot; it is always returned. *)
Lemma generate_rss_xml_spec arts k :
  generate_rss_xml utcnow arts k =
  Returned (channel_head (utcnow k)
            ++ concat (item_blocks utcnow arts (S k)) ++ channel_foot)
           (S k + length (filter falls_back arts)).
Proof.
  unfold generate_rss_xml, now_rfc822, bind, read_clock, ret.
  cbv beta iota zeta.
  rewrite for_articles_spec. f_equal.
  unfold channel_head, channel_foot.
  rewrite <- !app_assoc. reflexivity.
Qed.

Lemma length_item_blocks arts k :
  length (item_blocks utcnow arts k) = length arts.
Proof.
  revert k. induction arts as [|a r IH]; intros k; [reflexivity|].
  cbn [item_blocks length]. now rewrite IH.
Qed.

(** The item of the [i]-th article, rendered after the clock reads of the
    head and of the earlier articles that fall back on the clock. *)
Lemma nth_item_blocks arts k i a :
  nth_error arts i = Some a ->
  nth_error (item_blocks utcnow arts k) i =
  Some (item_block
          (escape (get_default (py "title") a (py "No Title")))
          (escape (get_default (py "link") a (py "#")))
          (escape (get_default (py "description") a
                     (escape (get_default (py "title") a (py "No Title")))))
          (pub_date_of utcnow a
             (k + length (filter falls_back (firstn i arts))))).
Proof.
  revert k i. induction arts as [|b r IH]; intros k i.
  - now destruct i.
  - destruct i as [|i]; cbn [nth_error item_blocks firstn filter].
    + intros [= ->]. cbn [length]. now rewrite Nat.add_0_r.
    + intros H. rewrite (IH _ _ H).
      match goal with
      | |- Some (item_block _ _ _ (pub_date_of _ _ ?x))
           = Some (item_block _ _ _ (pub_date_of _ _ ?y)) =>
          replace x with y; [reflexivity|]
      end.
      destruct (falls_back b); cbn [length]; lia.
Qed.

End RendererFacts.

(** ** Counting occurrences around the build date *)

Lemma startswith_within_spec a p b rest :
  startswith_within a p = Some b -> startswith (a ++ rest) p = b.
Proof.
  revert a. induction p as [|x p IH]; intros a.
  - intros H. assert (E : b = true) by (destruct a; cbn in H; congruence).
    rewrite E. now destruct (a ++ rest).
  - destruct a as [|y a]; [discriminate|].
    cbn [startswith_within app startswith].
    destruct (N.eqb x y); cbn [andb]; [apply IH | congruence].
Qed.

Lemma occurrences_within_spec pat a n rest :
  occurrences_within pat a = Some n ->
  occurrences pat (a ++ rest) = n + occurrences pat rest.
Proof.
  revert n. induction a as [|c r IH]; intros n.
  - now intros [= <-].
  - cbn [occurrences_within].
    destruct (startswith_within (c :: r) pat) as [b|] eqn:E; [|discriminate].
    destruct (occurrences_within pat r) as [m|]; [|discriminate].
    intros [= <-]. cbn [app occurrences].
    change (c :: r ++ rest) with ((c :: r) ++ rest).
    rewrite (startswith_within_spec _ _ _ rest E), (IH m eq_refl). lia.
Qed.

Lemma occurrences_skip c p s rest :
  forallb (fun x => negb (N.eqb c x)) s = true ->
  occurrences (c :: p) (s ++ rest) = occurrences (c :: p) rest.
Proof.
  induction s as [|y s IH]; [reflexivity|].
  cbn [forallb]. intros H. apply andb_true_iff in H. destruct H as (Hy & Hs).
  cbn [app occurrences startswith]. apply negb_true_iff in Hy.
  rewrite Hy. cbn [andb]. now apply IH.
Qed.

Lemma occurrences_around c p a s b n m :
  occurrences_within (c :: p) a = Some n ->
  forallb (fun x => negb (N.eqb c x)) s = true ->
  occurrences (c :: p) b = m ->
  occurrences (c :: p) (a ++ s ++ b) = n + m.
Proof.
  intros Ha Hs <-.
  now rewrite (occurrences_within_spec _ _ _ _ Ha), occurrences_skip.
Qed.

Lemma occurrences_around_closed pat a s b r :
  match pat with
  | c :: _ => forallb (fun x => negb (N.eqb c x)) s
  | [] => false
  end = true ->
  match occurrences_within pat a with
  | Some n => n + occurrences pat b
  | None => S r
  end = r ->
  occurrences pat (a ++ s ++ b) = r.
Proof.
  destruct pat as [|c p]; [discriminate|]. intros Hs H.
  destruct (occurrences_within (c :: p) a) as [n|] eqn:E; [|lia].
  rewrite <- H. now apply occurrences_around.
Qed.

Lemma digit_char_not_lt n : n < 10 -> not_lt (digit_char n) = true.
Proof. intros H. do 10 (destruct n as [|n]; [reflexivity|]). lia. Qed.

Lemma dec_aux_not_lt fuel n acc :
  forallb not_lt acc = true -> forallb not_lt (dec_aux fuel n acc) = true.
Proof.
  revert n acc. induction fuel as [|f IH]; intros n acc H; [exact H|].
  rewrite dec_aux_step.
  assert (K : forallb not_lt (digit_char (n mod 10) :: acc) = true).
  { cbn [forallb]. rewrite H, digit_char_not_lt; [reflexivity|].
    apply Nat.mod_upper_bound. lia. }
  destruct (n / 10 =? 0); [exact K | now apply IH].
Qed.

Lemma dec_not_lt n : forallb not_lt (dec n) = true.
Proof. now apply dec_aux_not_lt. Qed.

Lemma dec2_not_lt n : forallb not_lt (dec2 n) = true.
Proof.
  unfold dec2. destruct (n <? 10); [|apply dec_not_lt].
  cbn [forallb]. now rewrite dec_not_lt.
Qed.

Lemma nth_not_lt i (l : list str) :
  forallb (forallb not_lt) l = true -> forallb not_lt (nth i l []) = true.
Proof.
  revert i. induction l as [|a r IH]; intros i H.
  - now destruct i.
  - cbn [forallb] in H. apply andb_true_iff in H. destruct H as (Ha & Hr).
    destruct i; [exact Ha | now apply IH].
Qed.

Lemma strftime_rfc822 t :
  strftime t rfc822 =
  nth (weekday t) day_abbr [] ++ py ", " ++ dec2 (day t) ++ py " "
  ++ nth (month t - 1) month_abbr [] ++ py " " ++ dec (year t) ++ py " "
  ++ dec2 (hour t) ++ py ":" ++ dec2 (minute t) ++ py ":"
  ++ dec2 (second t) ++ py " "
  ++ match tzinfo t with Some utc => py "+0000" | None => [] end ++ [].
Proof. reflexivity. Qed.

(** No stamp holds a [<]. *)
Lemma strftime_rfc822_not_lt t : forallb not_lt (strftime t rfc822) = true.
Proof.
  rewrite strftime_rfc822.
  rewrite !forallb_app, !dec_not_lt, !dec2_not_lt.
  rewrite !nth_not_lt by reflexivity.
  now destruct (tzinfo t) as [[]|].
Qed.

Lemma document_shape t :
  channel_head t ++ [] ++ channel_foot =
  (py "<?xml version=\x221.0\x22 encoding=\x22UTF-8\x22 ?>\n"
   ++ py "<rss version=\x222.0\x22 xmlns:atom=\x22http://www.w3.org/2005/Atom\x22>\n"
   ++ py "<channel>\n"
   ++ py "  <title>Orange News - Commentaries</title>\n"
   ++ py "  <link>https://www.orangenews.hk/html/topic/index.html</link>\n"
   ++ py "  <description>Latest commentaries from Orange News HK</description>\n"
   ++ py "  <language>zh-cn</language>\n"
   ++ py "  <atom:link href=\x22https://totrphbm.manus.space/feed.xml\x22 rel=\x22self\x22 type=\x22application/rss+xml\x22 />\n"
   ++ py "  <lastBuildDate>")
  ++ strftime t rfc822
  ++ py "</lastBuildDate>\n</channel>\n</rss>\n".
Proof.
  unfold channel_head, channel_foot. rewrite <- !app_assoc. reflexivity.
Qed.

(** ** Properties of the renderer *)

Section RendererClaims.

Variable utcnow : nat -> datetime.

(** C6.  The document holds one item for each record, and the item of a
    record whose pubDate parses as a date carries the stamp of noon UTC
    on that date: the day of the week, the day, the month, the year,
    [12:00:00] and the offset [+0000].  In particular the pubDate
    [2024-03-15] is rendered as [Fri, 15 Mar 2024 12:00:00 +0000]. *)
Theorem parsed_pubDate_renders_as_noon_utc arts k :
  exists blocks k',
    generate_rss_xml utcnow arts k
    = Returned (channel_head (utcnow k) ++ concat blocks ++ channel_foot) k'
    /\ length blocks = length arts
    /\ (forall i a s dt,
          nth_error arts i = Some a ->
          get (py "pubDate") a = Some s ->
          strptime_ymd s = inr dt ->
          exists title link description,
            nth_error blocks i =
            Some (item_block title link description
                    (nth (weekday dt) day_abbr [] ++ py ", "
                     ++ dec2 (day dt) ++ py " "
                     ++ nth (month dt - 1) month_abbr [] ++ py " "
                     ++ dec (year dt) ++ py " 12:00:00 +0000")))
    /\ strptime_ymd (py "2024-03-15")
       = inr {| year := 2024; month := 3; day := 15;
                hour := 0; minute := 0; second := 0; tzinfo := None |}
    /\ (forall i a,
          nth_error arts i = Some a ->
          get (py "pubDate") a = Some (py "2024-03-15") ->
          exists title link description,
            nth_error blocks i =
            Some (item_block title link description
                    (py "Fri, 15 Mar 2024 12:00:00 +0000"))).
Proof.
  exists (item_blocks utcnow arts (S k)),
         (S k + length (filter falls_back arts)).
  split; [apply generate_rss_xml_spec|].
  split; [apply length_item_blocks|].
  assert (K : forall i a s dt,
             nth_error arts i = Some a ->
             get (py "pubDate") a = Some s ->
             strptime_ymd s = inr dt ->
             exists title link description,
               nth_error (item_blocks utcnow arts (S k)) i =
               Some (item_block title link description
                       (strftime (replace_noon_utc dt) rfc822))).
  { intros i a s dt Ha Hs Hdt.
    rewrite (nth_item_blocks utcnow arts (S k) i a Ha).
    do 3 eexists. do 2 f_equal.
    unfold pub_date_of. rewrite Hs, Hdt.
    now rewrite (strptime_ymd_truthy s dt Hdt). }
  split; [|split; [reflexivity|]].
  - intros i a s dt Ha Hs Hdt. rewrite <- strftime_noon_utc. eauto.
  - intros i a Ha Hs.
    exact (K i a (py "2024-03-15") _ Ha Hs eq_refl).
Qed.

(** C7.  The renderer always returns a document and never raises.  The
    document holds one item for each record, with the escaped title, link
    and description of the record, and the item of a record whose pubDate
    does not parse carries the stamp of the UTC clock read at that
    moment: the read that follows the one of the head of the channel and
    those of the earlier records that fell back on the clock. *)
Theorem unparsable_pubDate_falls_back_on_clock arts k :
  exists blocks k',
    generate_rss_xml utcnow arts k
    = Returned (channel_head (utcnow k) ++ concat blocks ++ channel_foot) k'
    /\ length blocks = length arts
    /\ forall i a,
         nth_error arts i = Some a ->
         exists stamp,
           nth_error blocks i =
           Some (item_block
                   (escape (get_default (py "title") a (py "No Title")))
                   (escape (get_default (py "link") a (py "#")))
                   (escape (get_default (py "description") a
                              (escape (get_default (py "title") a
                                                   (py "No Title")))))
                   stamp)
           /\ forall s e,
                get (py "pubDate") a = Some s ->
                strptime_ymd s = inl e ->
                stamp =
                strftime
                  (utcnow (S k + length (filter falls_back (firstn i arts))))
                  rfc822.
Proof.
  exists (item_blocks utcnow arts (S k)),
         (S k + length (filter falls_back arts)).
  split; [apply generate_rss_xml_spec|].
  split; [apply length_item_blocks|].
  intros i a Ha. eexists. split; [apply (nth_item_blocks _ _ _ _ _ Ha)|].
  intros s e Hs He. unfold pub_date_of. now rewrite Hs, He.
Qed.

(** C8.  In the item of a record the title, the link (in the link and in
    the guid elements) and the description stand in escaped form: the
    escaped text holds no [<], [>] or quote, and decoding its character
    references gives the field back. *)
Theorem fields_are_escaped_and_recoverable arts k :
  exists blocks k',
    generate_rss_xml utcnow arts k
    = Returned (channel_head (utcnow k) ++ concat blocks ++ channel_foot) k'
    /\ forall i a,
         nth_error arts i = Some a ->
         exists title link description stamp,
           nth_error blocks i =
           Some (item_block (escape title) (escape link)
                            (escape description) stamp)
           /\ (forall t, get (py "title") a = Some t -> title = t)
           /\ (forall l, get (py "link") a = Some l -> link = l)
           /\ (forall d, get (py "description") a = Some d ->
                         description = d)
           /\ unescape (escape title) = Some title
           /\ unescape (escape link) = Some link
           /\ unescape (escape description) = Some description
           /\ forallb plain_char (escape title) = true
           /\ forallb plain_char (escape link) = true
           /\ forallb plain_char (escape description) = true.
Proof.
  exists (item_blocks utcnow arts (S k)),
         (S k + length (filter falls_back arts)).
  split; [apply generate_rss_xml_spec|].
  intros i a Ha. do 4 eexists.
  split; [apply (nth_item_blocks _ _ _ _ _ Ha)|].
  unfold get_default.
  repeat split; try apply unescape_escape; try apply escape_plain.
  - intros t ->. reflexivity.
  - intros l ->. reflexivity.
  - intros d ->. reflexivity.
Qed.

(** C9.  On the empty list the renderer returns the whole frame of the
    feed: the XML declaration, the rss root with its version and the atom
    namespace, one channel with its title, link, description, language,
    self link and build date, and the closing tags, with one [<channel>]
    and no [<item>]. *)
Theorem empty_feed_is_complete k :
  exists doc,
    generate_rss_xml utcnow [] k = Returned doc (S k)
    /\ doc =
       (py "<?xml version=\x221.0\x22 encoding=\x22UTF-8\x22 ?>\n"
        ++ py "<rss version=\x222.0\x22 xmlns:atom=\x22http://www.w3.org/2005/Atom\x22>\n"
        ++ py "<channel>\n"
        ++ py "  <title>Orange News - Commentaries</title>\n"
        ++ py "  <link>https://www.orangenews.hk/html/topic/index.html</link>\n"
        ++ py "  <description>Latest commentaries from Orange News HK</description>\n"
        ++ py "  <language>zh-cn</language>\n"
        ++ py "  <atom:link href=\x22https://totrphbm.manus.space/feed.xml\x22 rel=\x22self\x22 type=\x22application/rss+xml\x22 />\n"
        ++ py "  <lastBuildDate>")
       ++ strftime (utcnow k) rfc822
       ++ py "</lastBuildDate>\n</channel>\n</rss>\n"
    /\ occurrences (py "<?xml ") doc = 1
    /\ occurrences (py "<rss ") doc = 1
    /\ occurrences (py "</rss>") doc = 1
    /\ occurrences (py "<channel>") doc = 1
    /\ occurrences (py "</channel>") doc = 1
    /\ occurrences (py "<item>") doc = 0.
Proof.
  eexists. split.
  { rewrite generate_rss_xml_spec. cbn [filter length item_blocks concat].
    rewrite Nat.add_0_r, document_shape. reflexivity. }
  split; [reflexivity|].
  repeat split;
    (apply occurrences_around_closed;
     [ exact (strftime_rfc822_not_lt (utcnow k))
     | vm_compute; reflexivity ]).
Qed.

End RendererClaims.

(** * Further properties *)

(** ** What the extractor raises *)

Section UrllibErrors.

Variable checks : netloc_checks.





(** Without a scheme of its own a reference takes the default one. *)
Lemma urlsplit_default_scheme url r :
  url_scheme url = None ->
  urlsplit checks url (py "https") = inr r -> sr_scheme r = py "https".
Proof.
  unfold urlsplit, url_scheme.
  set (u := replace 10 [] (replace 13 [] (replace 9 []
              (lstrip_by c0_control_or_space url)))).
  change (replace 10 [] (replace 13 [] (replace 9 []
            (strip_by c0_control_or_space (py "https")))))
    with (py "https").
  intros Hs.
  assert (E : (match find_char 58 u, u with
               | Some (S i), c0 :: _ =>
                   if (c0 <? 128)%N && ascii_alpha c0
                      && forallb scheme_chars (firstn (S i) u)
                   then (map lower (firstn (S i) u), skipn (S (S i)) u)
                   else (py "https", u)
               | _, _ => (py "https", u)
               end) = (py "https", u)).
  { destruct (find_char 58 u) as [[|i]|]; try reflexivity.
    destruct u as [|c0 u']; [reflexivity|].
    destruct ((c0 <? 128)%N && ascii_alpha c0
              && forallb scheme_chars (firstn (S i) (c0 :: u')));
      [discriminate | reflexivity]. }
  rewrite E.
  repeat match goal with
         | |- context [let '(_, _) := ?c in _] => destruct c
         | |- context [if ?c then _ else _] => destruct c
         | |- context [match ?c with Some _ => _ | None => _ end] => destruct c
         end; try discriminate; intros [= <-]; reflexivity.
Qed.

End UrllibErrors.

Lemma keep_first_length e cs : length (keep_first e cs) <= length cs.
Proof.
  revert e. induction cs as [|c r IH]; intros e; [reflexivity|].
  cbn [keep_first]. rewrite length_app. specialize (IH (e ++ [c])).
  destruct (existsb (fun y => same_link y c) e); cbn [length]; lia.
Qed.

Section ExtractorBehaviour.

Variable checks : netloc_checks.
Variable html_parser : str -> list node.
Variable now : nat -> datetime.

Lemma urlparse_scheme url p :
  urlparse checks url (py "https") = inr p ->
  match url_scheme url with
  | Some s => scheme p = s
  | None => scheme p = py "https"
  end.
Proof.
  unfold urlparse.
  destruct (urlsplit checks url (py "https")) as [e|r] eqn:E;
    [discriminate|].
  destruct (if mem (sr_scheme r) uses_params && has 59 (sr_path r)
            then splitparams (sr_path r) else (sr_path r, [])).
  intros [= <-]. cbn [scheme].
  pose proof (urlsplit_scheme checks _ _ _ E) as S1.
  destruct (url_scheme url) eqn:Es; [exact S1|].
  eapply urlsplit_default_scheme; eassumption.
Qed.

(** What is stored begins with [http] or has a scheme other than
    [https]. *)
Lemma normalize_url_shape href u :
  truthy href = true ->
  normalize_url checks href = inr u ->
  startswith u (py "http") = true
  \/ exists s, url_scheme u = Some s /\ s <> py "https".
Proof.
  intros Ht. unfold normalize_url.
  destruct (startswith href (py "http")) eqn:Es.
  { intros [= <-]. now left. }
  unfold urljoin. rewrite urlparse_base, Ht.
  change (negb (truthy BASE_URL)) with false. cbn [negb].
  cbn [scheme netloc path params query fragment].
  destruct (urlparse checks href (py "https")) as [e|p] eqn:E;
    [discriminate|].
  apply urlparse_scheme in E.
  destruct (negb (eqb (scheme p) (py "https"))
            || negb (mem (scheme p) uses_relative)) eqn:C.
  - intros [= <-]. right.
    destruct (url_scheme href) as [s|].
    + exists s. split; [reflexivity|]. intros ->. rewrite E in C.
      discriminate C.
    + rewrite E in C. discriminate C.
  - apply orb_false_iff in C. destruct C as (C & _).
    apply negb_false_iff, eqb_eq in C.
    assert (K : forall n x ps q f,
               startswith (urlunparse (scheme p) n x ps q f) (py "http")
               = true).
    { intros. unfold urlunparse. cbv zeta. rewrite C.
      match goal with
      | |- context [urlunsplit ?a ?b ?c ?d ?e] =>
          destruct (urlunsplit_scheme a b c d e eq_refl) as [r ->]
      end. reflexivity. }
    repeat match goal with
           | |- context [if ?c then _ else _] => destruct c
           end; intros [= <-]; left; apply K.
Qed.


Lemma candidate_resolved link k c k' :
  candidate checks now link k = Returned (Some c) k' ->
  get (py "link") c = resolved_href checks link
  /\ get (py "title") c = Some (title_of link)
  /\ get (py "description") c = Some (title_of link)
  /\ k' = k + (if undated link then 1 else 0).
Proof.
  intros H. apply candidate_inv in H.
  destruct H as (href & u & d & _ & Hh & Hn & -> & Hd).
  unfold resolved_href, undated. rewrite Hh, Hn.
  repeat split.
  destruct Hd as [(-> & ->)|(-> & _ & ->)]; lia.
Qed.



(** The candidates are the qualifying links, one for one, and the clock
    is read once for each of them that shows no date. *)
Lemma candidates_shape links k cs k' :
  candidates checks now links k = Returned cs k' ->
  Forall2 (fun link c =>
             get (py "link") c = resolved_href checks link
             /\ get (py "title") c = Some (title_of link)
             /\ get (py "description") c = Some (title_of link))
          (filter qualifying links) cs
  /\ k' = k + length (filter undated (filter qualifying links)).
Proof.
  revert k cs k'. induction links as [|l r IH]; intros k cs k'.
  - intros [= <- <-]. split; [constructor | cbn; lia].
  - cbn [candidates filter]. unfold bind.
    destruct (candidate checks now l k) as [[c|] k1|e] eqn:Ec;
      [| |discriminate];
      destruct (candidates checks now r k1) as [cs1 k2|e] eqn:Er;
      try discriminate; unfold ret; intros [= <- <-];
      destruct (IH _ _ _ Er) as (IH1 & IH2).
    + pose proof Ec as Ec'. apply candidate_inv in Ec'.
      destruct Ec' as (_ & _ & _ & Hq & _). rewrite Hq.
      apply candidate_resolved in Ec.
      destruct Ec as (E1 & E2 & E3 & E4).
      split; [now constructor|].
      cbn [filter]. destruct (undated l); cbn [length]; lia.
    + apply candidate_none_inv in Ec. destruct Ec as (Hq & ->).
      rewrite Hq. now split.
Qed.

(** X1.  Every record returned stems from a qualifying link of the page:
    it has the trimmed text of the link as title and as description and
    the resolved href of the link as link; and there are never more
    records than qualifying links. *)
Theorem extract_articles_records_stem_from_links html_content k recs k' :
  extract_articles checks html_parser now html_content k
  = Returned recs k' ->
  length recs
  <= length (filter qualifying (enumerated_links html_parser html_content))
  /\ forall a, In a recs ->
       exists link,
         In link (enumerated_links html_parser html_content)
         /\ qualifying link = true
         /\ get (py "title") a = Some (title_of link)
         /\ get (py "description") a = Some (title_of link)
         /\ get (py "link") a = resolved_href checks link.
Proof.
  rewrite extract_articles_keep_first.
  destruct (candidates checks now _ k) as [cs k1|e] eqn:Ec; [|discriminate].
  intros [= <- <-].
  destruct (candidates_shape _ _ _ _ Ec) as (Hs & _). split.
  - rewrite (Forall2_length Hs). apply keep_first_length.
  - intros a Ha. apply keep_first_incl in Ha.
    pose proof (candidates_origin checks now _ _ _ _ Ec) as Ho.
    rewrite Forall_forall in Ho.
    destruct (Ho a Ha) as (link & j & j' & Hin & Hc).
    exists link. split; [exact Hin|].
    pose proof Hc as Hc'. apply candidate_inv in Hc'.
    destruct Hc' as (_ & _ & _ & Hq & _).
    apply candidate_resolved in Hc. destruct Hc as (E1 & E2 & E3 & _).
    now repeat split.
Qed.


(** X3.  The clock is read once for every qualifying link that shows no
    date among its five nearest parents, whether or not the link turns
    out to be a duplicate, and at no other time. *)
Theorem extract_articles_clock_reads html_content k recs k' :
  extract_articles checks html_parser now html_content k
  = Returned recs k' ->
  k' = k + length (filter undated
                     (filter qualifying
                        (enumerated_links html_parser html_content))).
Proof.
  rewrite extract_articles_keep_first.
  destruct (candidates checks now _ k) as [cs k1|e] eqn:Ec; [|discriminate].
  intros [= _ <-]. now destruct (candidates_shape _ _ _ _ Ec).
Qed.

Lemma candidate_clock_free now' link k :
  qualifying link = true -> undated link = false ->
  candidate checks now link k = candidate checks now' link k.
Proof.
  intros _ Hu. unfold candidate, undated in *.
  destruct (qualifying link); [|reflexivity].
  destruct (href_of link) as [href|]; [|reflexivity].
  unfold bind. destruct (lift (normalize_url checks href) k); [|reflexivity].
  now destruct (first_date (firstn 5 (parents link))).
Qed.

(** X4.  When every qualifying link shows a date among its five nearest
    parents, the outcome of the extraction is the same under any two
    clocks. *)
Theorem extract_articles_clock_independent now' html_content k :
  (forall link,
     In link (enumerated_links html_parser html_content) ->
     qualifying link = true -> undated link = false) ->
  extract_articles checks html_parser now html_content k
  = extract_articles checks html_parser now' html_content k.
Proof.
  intros H. rewrite !extract_articles_keep_first.
  assert (E : forall links k0,
             (forall link, In link links -> qualifying link = true ->
                           undated link = false) ->
             candidates checks now links k0 = candidates checks now' links k0).
  { induction links as [|l r IH]; intros k0 Hl; [reflexivity|].
    cbn [candidates]. unfold bind.
    assert (Ec : candidate checks now l k0 = candidate checks now' l k0).
    { destruct (qualifying l) eqn:Hq.
      - apply candidate_clock_free; [exact Hq|]. apply Hl; [now left|exact Hq].
      - unfold candidate. now rewrite Hq. }
    rewrite Ec. destruct (candidate checks now' l k0) as [c k1|e];
      [|reflexivity].
    rewrite IH; [reflexivity|]. intros link Hin. apply Hl. now right. }
  now rewrite E.
Qed.

(** X5.  The link of every record returned begins with [http] or carries
    a scheme other than [https]: apart from a path that itself begins
    with [http], no relative reference is stored. *)
Theorem extract_articles_links_are_absolute html_content k recs k' :
  extract_articles checks html_parser now html_content k
  = Returned recs k' ->
  Forall (fun a =>
            exists l,
              get (py "link") a = Some l
              /\ (startswith l (py "http") = true
                  \/ exists s, url_scheme l = Some s /\ s <> py "https"))
         recs.
Proof.
  rewrite extract_articles_keep_first.
  destruct (candidates checks now _ k) as [cs k1|e] eqn:Ec; [|discriminate].
  intros [= <- <-]. apply Forall_forall. intros a Ha.
  apply keep_first_incl in Ha.
  pose proof (candidates_origin checks now _ _ _ _ Ec) as Ho.
  rewrite Forall_forall in Ho.
  destruct (Ho a Ha) as (link & j & j' & _ & Hc).
  apply candidate_inv in Hc.
  destruct Hc as (href & u & d & Hq & Hh & Hn & -> & _).
  exists u. split; [reflexivity|].
  apply (normalize_url_shape href); [|exact Hn].
  unfold qualifying in Hq. rewrite Hh in Hq.
  apply andb_true_iff in Hq. destruct Hq as (_ & Hq).
  now apply andb_true_iff in Hq.
Qed.

End ExtractorBehaviour.

(** ** The items of the document *)

Lemma forallb_impl {A} (f g : A -> bool) l :
  (forall x, f x = true -> g x = true) ->
  forallb f l = true -> forallb g l = true.
Proof.
  intros H. induction l as [|a r IH]; [reflexivity|].
  cbn [forallb]. intros E. apply andb_true_iff in E. destruct E as (Ea & Er).
  now rewrite (H a Ea), IH.
Qed.

Lemma escape_not_lt s : forallb not_lt (escape s) = true.
Proof.
  apply (forallb_impl plain_char); [|apply escape_plain].
  intros c. unfold plain_char, not_lt. rewrite (N.eqb_sym 60 c).
  now destruct (N.eqb c 60).
Qed.

Lemma pub_date_of_not_lt utcnow a k :
  forallb not_lt (pub_date_of utcnow a k) = true.
Proof.
  unfold pub_date_of.
  destruct (get (py "pubDate") a) as [s|];
    [destruct (strptime_ymd s); [|destruct (truthy s)]|];
    apply strftime_rfc822_not_lt.
Qed.

(** Counting a pattern that begins with [<] through a text made of
    literal pieces and of pieces that hold no [<]. *)
Ltac count_pieces :=
  repeat first
    [ rewrite occurrences_skip
        by first [ exact (escape_not_lt _)
                 | exact (strftime_rfc822_not_lt _)
                 | exact (pub_date_of_not_lt _ _ _)
                 | assumption ]
    | erewrite occurrences_within_spec by (vm_compute; reflexivity) ].

Lemma opening_items_of_block t l d s rest :
  forallb not_lt s = true ->
  occurrences (60%N :: py "item>")
              (item_block (escape t) (escape l) (escape d) s ++ rest)
  = 1 + occurrences (60%N :: py "item>") rest.
Proof.
  intros Hs. unfold item_block. rewrite <- !app_assoc.
  count_pieces. reflexivity.
Qed.

Lemma closing_items_of_block t l d s rest :
  forallb not_lt s = true ->
  occurrences (60%N :: py "/item>")
              (item_block (escape t) (escape l) (escape d) s ++ rest)
  = 1 + occurrences (60%N :: py "/item>") rest.
Proof.
  intros Hs. unfold item_block. rewrite <- !app_assoc.
  count_pieces. reflexivity.
Qed.

Lemma opening_items_of_head t rest :
  occurrences (60%N :: py "item>") (channel_head t ++ rest)
  = occurrences (60%N :: py "item>") rest.
Proof.
  unfold channel_head. rewrite <- !app_assoc. count_pieces. reflexivity.
Qed.

Lemma closing_items_of_head t rest :
  occurrences (60%N :: py "/item>") (channel_head t ++ rest)
  = occurrences (60%N :: py "/item>") rest.
Proof.
  unfold channel_head. rewrite <- !app_assoc. count_pieces. reflexivity.
Qed.

Section RendererBehaviour.

Variable utcnow : nat -> datetime.

Lemma opening_items_of_blocks arts k rest :
  occurrences (60%N :: py "item>")
              (concat (item_blocks utcnow arts k) ++ rest)
  = length arts + occurrences (60%N :: py "item>") rest.
Proof.
  revert k. induction arts as [|a r IH]; intros k; [reflexivity|].
  cbn [item_blocks concat length]. rewrite <- app_assoc.
  rewrite opening_items_of_block by apply pub_date_of_not_lt.
  rewrite IH. lia.
Qed.

Lemma closing_items_of_blocks arts k rest :
  occurrences (60%N :: py "/item>")
              (concat (item_blocks utcnow arts k) ++ rest)
  = length arts + occurrences (60%N :: py "/item>") rest.
Proof.
  revert k. induction arts as [|a r IH]; intros k; [reflexivity|].
  cbn [item_blocks concat length]. rewrite <- app_assoc.
  rewrite closing_items_of_block by apply pub_date_of_not_lt.
  rewrite IH. lia.
Qed.

(** X6.  Whatever the fields of the records hold, the document has as
    many [<item>] opening tags, and as many closing ones, as there are
    records: no field can add or hide an item. *)
Theorem generate_rss_xml_one_item_per_record arts k :
  exists doc k',
    generate_rss_xml utcnow arts k = Returned doc k'
    /\ occurrences (py "<item>") doc = length arts
    /\ occurrences (py "</item>") doc = length arts.
Proof.
  do 2 eexists. split; [apply generate_rss_xml_spec|].
  change (py "<item>") with (60%N :: py "item>").
  change (py "</item>") with (60%N :: py "/item>").
  rewrite opening_items_of_head, closing_items_of_head.
  rewrite opening_items_of_blocks, closing_items_of_blocks.
  split; [change (occurrences (60%N :: py "item>") channel_foot) with 0
         |change (occurrences (60%N :: py "/item>") channel_foot) with 0];
    lia.
Qed.

End RendererBehaviour.

(** ** The clock reads of the renderer *)

Lemma pub_date_of_agree c1 c2 a k :
  (falls_back a = true -> c1 k = c2 k) ->
  pub_date_of c1 a k = pub_date_of c2 a k.
Proof.
  unfold pub_date_of, falls_back.
  destruct (get (py "pubDate") a) as [s|].
  - destruct (strptime_ymd s) as [e|dt].
    + destruct (truthy s); intros H; now rewrite H.
    + destruct (truthy s); [reflexivity|]. intros H. now rewrite H.
  - intros H. now rewrite H.
Qed.

Lemma item_blocks_agree c1 c2 arts k :
  (forall j, k <= j < k + length (filter falls_back arts) -> c1 j = c2 j) ->
  item_blocks c1 arts k = item_blocks c2 arts k.
Proof.
  revert k. induction arts as [|a r IH]; intros k H; [reflexivity|].
  cbn [item_blocks filter] in *. f_equal.
  - f_equal. apply pub_date_of_agree. intros Hf. apply H.
    rewrite Hf. cbn [length]. lia.
  - apply IH. intros j Hj. apply H.
    destruct (falls_back a); cbn [length]; lia.
Qed.

(** X7.  The renderer reads the clock once for the build date and once
    more for every record whose pubDate is missing, empty or does not
    parse, and for nothing else: two clocks that agree on these reads
    give the same document. *)
Theorem generate_rss_xml_clock_reads utcnow utcnow' arts k :
  (forall j, k <= j <= k + length (filter falls_back arts) ->
             utcnow j = utcnow' j) ->
  exists doc,
    generate_rss_xml utcnow arts k
    = Returned doc (S k + length (filter falls_back arts))
    /\ generate_rss_xml utcnow' arts k
       = Returned doc (S k + length (filter falls_back arts)).
Proof.
  intros H. eexists. split; [apply generate_rss_xml_spec|].
  rewrite generate_rss_xml_spec. f_equal.
  rewrite <- (H k) by lia.
  rewrite (item_blocks_agree utcnow utcnow' arts (S k)); [reflexivity|].
  intros j Hj. apply H. lia.
Qed.

(** ** Defaults of the renderer *)

Lemma escape_char_length c : 1 <= length (escape_char c).
Proof.
  unfold escape_char.
  repeat match goal with
         | |- context [if ?b then _ else _] => destruct b
         end; cbn; lia.
Qed.

Lemma escape_length s : length s <= length (escape s).
Proof.
  rewrite escape_flat_map. induction s as [|c r IH]; [reflexivity|].
  cbn [flat_map length]. rewrite length_app.
  pose proof (escape_char_length c). lia.
Qed.

Lemma escape_length_special s :
  has_special s = true -> length s < length (escape s).
Proof.
  rewrite escape_flat_map. unfold has_special.
  induction s as [|c r IH]; [discriminate|].
  cbn [existsb flat_map length]. rewrite length_app. intros H.
  apply orb_true_iff in H. destruct H as [H|H].
  - assert (L : 2 <= length (escape_char c)).
    { unfold escape_char.
      destruct (N.eqb c 38); [cbn; lia|].
      destruct (N.eqb c 60); [cbn; lia|].
      destruct (N.eqb c 62); [cbn; lia|].
      destruct (N.eqb c 34); [cbn; lia|].
      destruct (N.eqb c 39); [cbn; lia | discriminate]. }
    pose proof (escape_length r) as L'. rewrite escape_flat_map in L'. lia.
  - specialize (IH H). pose proof (escape_char_length c). lia.
Qed.

Section RendererDefaults.

Variable utcnow : nat -> datetime.

(** X8.  A record with no description is rendered with its title in the
    place of the description, escaped a second time: decoding the
    description of the item gives the escaped title, which is not the
    title when the title holds one of the escaped characters.  A record
    with no title is rendered as [No Title], one with no link as [#]. *)
Theorem missing_description_is_title_escaped_twice arts k i a :
  nth_error arts i = Some a ->
  get (py "description") a = None ->
  exists blocks k' title link stamp,
    generate_rss_xml utcnow arts k
    = Returned (channel_head (utcnow k) ++ concat blocks ++ channel_foot) k'
    /\ nth_error blocks i
       = Some (item_block (escape title) (escape link)
                          (escape (escape title)) stamp)
    /\ title = match get (py "title") a with
               | Some t => t
               | None => py "No Title"
               end
    /\ link = match get (py "link") a with
              | Some l => l
              | None => py "#"
              end
    /\ unescape (escape (escape title)) = Some (escape title)
    /\ (has_special title = true -> escape title <> title).
Proof.
  intros Ha Hd.
  exists (item_blocks utcnow arts (S k)),
         (S k + length (filter falls_back arts)),
         (get_default (py "title") a (py "No Title")),
         (get_default (py "link") a (py "#")),
         (pub_date_of utcnow a
            (S k + length (filter falls_back (firstn i arts)))).
  split; [apply generate_rss_xml_spec|].
  split.
  { pose proof (nth_item_blocks utcnow arts (S k) i a Ha) as E.
    unfold get_default at 3 in E. rewrite Hd in E. exact E. }
  repeat split; try apply unescape_escape.
  intros Hs E. apply escape_length_special in Hs.
  rewrite E in Hs. lia.
Qed.

End RendererDefaults.

(** ** From the extractor to the renderer *)

Lemma escape_injective a b : escape a = escape b -> a = b.
Proof.
  intros E. pose proof (unescape_escape a) as Ha.
  rewrite E, unescape_escape in Ha. congruence.
Qed.

Lemma NoDup_map_transfer {A B C} (f : A -> B) (g : A -> C) l :
  NoDup (map f l) ->
  (forall x y, In x l -> In y l -> g x = g y -> f x = f y) ->
  NoDup (map g l).
Proof.
  induction l as [|a r IH]; cbn [map]; intros Hn H; [constructor|].
  inversion Hn as [|? ? Ha Hr]; subst. constructor.
  - intros Hin. apply in_map_iff in Hin. destruct Hin as (y & Hy & Hin).
    apply Ha. apply in_map_iff. exists y. split; [|exact Hin].
    apply H; [now right | now left | exact Hy].
  - apply IH; [exact Hr|]. intros x y Hx Hy. apply H; now right.
Qed.

Section Pipeline.

Variable checks : netloc_checks.
Variable html_parser : str -> list node.
Variable now : nat -> datetime.
Variable utcnow : nat -> datetime.

(** X9.  Rendered from the records of one extraction, the items carry
    pairwise distinct guid values: the escaped links of the records, one
    item after the other. *)
Theorem extracted_records_render_distinct_guids html_content k recs k1 :
  extract_articles checks html_parser now html_content k
  = Returned recs k1 ->
  exists blocks k2,
    generate_rss_xml utcnow recs k1
    = Returned (channel_head (utcnow k1) ++ concat blocks ++ channel_foot) k2
    /\ NoDup (map (fun a => escape (get_default (py "link") a (py "#")))
                  recs)
    /\ forall i a,
         nth_error recs i = Some a ->
         exists title description stamp,
           nth_error blocks i
           = Some (item_block title
                     (escape (get_default (py "link") a (py "#")))
                     description stamp).
Proof.
  rewrite extract_articles_keep_first.
  destruct (candidates checks now _ k) as [cs k'|e] eqn:Ec; [|discriminate].
  intros [= <- <-].
  exists (item_blocks utcnow (keep_first [] cs) (S k')),
         (S k' + length (filter falls_back (keep_first [] cs))).
  split; [apply generate_rss_xml_spec|]. split.
  - pose proof (candidates_has_link checks now _ _ _ _ Ec) as Hl.
    apply (NoDup_map_transfer (get (py "link")));
      [now apply keep_first_nodup|].
    intros x y Hx Hy E. apply escape_injective in E.
    apply keep_first_incl in Hx, Hy. rewrite Forall_forall in Hl.
    pose proof (Hl x Hx) as Lx. pose proof (Hl y Hy) as Ly.
    unfold has_link, get_default in *.
    destruct (get (py "link") x), (get (py "link") y);
      try discriminate. now subst.
  - intros i a Ha. do 3 eexists.
    exact (nth_item_blocks utcnow _ (S k') i a Ha).
Qed.

End Pipeline.

(** ** Dates written by the extractor and read by the renderer *)

Lemma digit_value_digit_char n :
  n < 10 -> digit_value (digit_char n) = Some (N.of_nat n).
Proof.
  intros H. do 10 (destruct n as [|n]; [reflexivity|]). lia.
Qed.

Lemma int_digits_four a b c d :
  a < 10 -> b < 10 -> c < 10 -> d < 10 ->
  int_digits [digit_char a; digit_char b; digit_char c; digit_char d]
  = 1000 * a + 100 * b + 10 * c + d.
Proof.
  intros Ha Hb Hc Hd. unfold int_digits. cbn [fold_left].
  rewrite !digit_value_digit_char by assumption.
  rewrite !Nat2N.id. lia.
Qed.

Lemma match_ymd_canonical y1 y2 y3 y4 m d :
  isdigit y1 = true -> isdigit y2 = true ->
  isdigit y3 = true -> isdigit y4 = true ->
  1 <= m <= 12 -> 1 <= d <= 31 ->
  match_ymd (y1 :: y2 :: y3 :: y4 :: hyphen
               :: dec2 m ++ hyphen :: dec2 d)
  = Some (int_digits [y1; y2; y3; y4], m, d, []).
Proof.
  intros H1 H2 H3 H4 Hm Hd. unfold match_ymd.
  rewrite H1, H2, H3, H4. cbn [andb].
  change (N.eqb hyphen hyphen) with true. cbv iota.
  assert (Im : In m (seq 1 12)) by (apply in_seq; lia).
  assert (Id : In d (seq 1 31)) by (apply in_seq; lia).
  cbn [seq] in Im, Id.
  repeat (destruct Im as [<-|Im]; [|]); try contradiction;
    repeat (destruct Id as [<-|Id]; [reflexivity|]); contradiction.
Qed.

(** X10.  The date the extractor writes when a page shows none is read
    back by the renderer as the same date: for a clock reading with a
    four-digit year, [strptime] undoes [strftime], and a record with this
    pubDate is rendered with noon UTC of the day of the extraction,
    without a read of the renderer's clock. *)
Theorem fallback_date_round_trip t :
  four_digit_year t ->
  day t <= days_in_month (year t) (month t) ->
  strptime_ymd (strftime t (py "%Y-%m-%d")) = inr (midnight t)
  /\ forall utcnow a rss k,
       get (py "pubDate") a = Some (strftime t (py "%Y-%m-%d")) ->
       exists title link description,
         render_item utcnow a rss k
         = Returned
             (rss ++ item_block title link description
                       (strftime (replace_noon_utc t) rfc822))
             k.
Proof.
  intros (Hy & Hm & Hd) Hdim.
  assert (E : strptime_ymd (strftime t (py "%Y-%m-%d"))
              = inr (midnight t)).
  { rewrite strftime_ymd, dec_four by exact Hy. small_literals.
    cbn [app]. unfold strptime_ymd.
    assert (B : forall n, n mod 10 < 10)
      by (intros; apply Nat.mod_upper_bound; lia).
    assert (B0 : year t / 1000 < 10)
      by (apply Nat.Div0.div_lt_upper_bound; lia).
    rewrite match_ymd_canonical;
      try apply isdigit_digit_char; try apply B; try exact B0;
      try lia.
    rewrite int_digits_four; try apply B; try exact B0.
    assert (Y : 1000 * (year t / 1000) + 100 * (year t / 100 mod 10)
                + 10 * (year t / 10 mod 10) + year t mod 10 = year t).
    { pose proof (Nat.div_mod_eq (year t) 10).
      pose proof (Nat.div_mod_eq (year t / 10) 10).
      pose proof (Nat.div_mod_eq (year t / 10 / 10) 10).
      rewrite !Nat.Div0.div_div in *.
      change (10 * 10) with 100 in *. change (100 * 10) with 1000 in *.
      assert (year t / 1000 mod 10 = year t / 1000)
        by (apply Nat.mod_small; exact B0).
      lia. }
    rewrite Y.
    replace ((1 <=? year t) && (year t <=? 9999) && (1 <=? month t)
             && (month t <=? 12) && (1 <=? day t)
             && (day t <=? days_in_month (year t) (month t))) with true;
      [reflexivity|].
    symmetry. repeat (apply andb_true_iff; split);
      apply Nat.leb_le; try lia.
    change 9999 with (9 * 1111). lia. }
  split; [exact E|].
  intros utcnow a rss k Ha. do 3 eexists.
  rewrite render_item_spec. unfold pub_date_of, falls_back.
  rewrite Ha, E, strftime_ymd_truthy. reflexivity.
Qed.

(** ** Runs of the program *)

Section ProgramBehaviour.

Variable checks : netloc_checks.
Variable html_parser : str -> list node.
Variable now : nat -> datetime.
Variable utcnow : nat -> datetime.
Variable requests_get : str -> dict -> nat -> str + Response.
Variable open_w : str -> option str.
Variable write_text : str -> str -> option str.

Lemma raise_for_status_None r :
  raise_for_status r = None
  <-> status_code r < 400 \/ 600 <= status_code r.
Proof.
  unfold raise_for_status.
  destruct (Nat.leb_spec 400 (status_code r));
    destruct (Nat.ltb_spec (status_code r) 500);
    destruct (Nat.leb_spec 500 (status_code r));
    destruct (Nat.ltb_spec (status_code r) 600); cbn [andb];
    split; intros K; try discriminate; try reflexivity; lia.
Qed.

(** X11.  [fetch_page] makes one request, with the configured user agent
    and a timeout of 30 seconds.  It returns the body exactly when the
    request succeeds with a status outside 400..599, and then prints
    nothing; in every other case it returns [None] after printing one
    line that names the URL and the error. *)
Theorem fetch_page_returns_body_iff_success url :
  exists headers,
    get (py "User-Agent") headers = Some USER_AGENT
    /\ (forall body,
          snd (fetch_page requests_get url) = Some body
          <-> exists r,
                requests_get url headers 30 = inr r
                /\ (status_code r < 400 \/ 600 <= status_code r)
                /\ text r = body)
    /\ (forall body,
          snd (fetch_page requests_get url) = Some body ->
          fst (fetch_page requests_get url) = [Get url headers 30])
    /\ (snd (fetch_page requests_get url) = None ->
        exists e,
          fst (fetch_page requests_get url)
          = [Get url headers 30;
             Print (py "Error fetching " ++ url ++ py ": " ++ e)]).
Proof.
  exists [ (py "User-Agent", USER_AGENT);
           (py "Accept-Language", py "zh-HK,zh;q=0.9,en-US;q=0.8,en;q=0.7") ].
  split; [reflexivity|]. unfold fetch_page. cbv zeta.
  match goal with
  | |- context [requests_get url ?h 30] =>
      destruct (requests_get url h 30) as [e|r] eqn:E
  end.
  - cbn [fst snd]. repeat split; try discriminate; eauto.
    intros (r & H & _). discriminate H.
  - destruct (raise_for_status r) as [e|] eqn:Er; cbn [fst snd].
    + repeat split; try discriminate; eauto.
      intros (r' & [= <-] & Hs & _).
      apply raise_for_status_None in Hs. congruence.
    + apply raise_for_status_None in Er. repeat split; try discriminate.
      * intros [= <-]. eauto.
      * intros (r' & [= <-] & _ & <-). reflexivity.
Qed.

Lemma fetch_page_touches_no_file url :
  existsb touches_file (fst (fetch_page requests_get url)) = false.
Proof.
  unfold fetch_page.
  match goal with
  | |- context [requests_get url ?h 30] =>
      destruct (requests_get url h 30) as [e|r]
  end; [reflexivity|].
  now destruct (raise_for_status r).
Qed.

Lemma writes_touches l :
  existsb touches_file l = false -> existsb writes l = false.
Proof.
  induction l as [|e r IH]; [reflexivity|]. cbn [existsb].
  intros H. apply orb_false_iff in H. destruct H as (H1 & H2).
  rewrite (IH H2). now destruct e.
Qed.

Lemma In_Write l path doc :
  In (Write path doc) l -> existsb writes l = true.
Proof. intros H. apply existsb_exists. now exists (Write path doc). Qed.



Lemma no_file_event l e :
  existsb touches_file l = false -> In e l -> touches_file e = false.
Proof.
  intros H Hin. destruct (touches_file e) eqn:E; [|reflexivity].
  rewrite <- H. symmetry. apply existsb_exists. now exists e.
Qed.


Ltac run_main output :=
  unfold main;
  pose proof (fetch_page_touches_no_file TOPIC_URL) as Hf;
  destruct (fetch_page requests_get TOPIC_URL) as [fetched html_content]
    eqn:Ef;
  cbn [fst snd] in Hf |- *; cbv beta iota zeta;
  destruct html_content as [[|c0 body]|]; cbn [truthy negb];
  [| rewrite extract_articles_keep_first;
     match goal with
     | |- context [candidates checks now ?l 0] =>
         destruct (candidates checks now l 0) as [cs k1|e0] eqn:Ec
     end;
     [ match goal with
       | |- context [keep_first [] ?c] =>
           destruct (keep_first [] c) as [|a0 recs0] eqn:Ek
       end;
       [| rewrite generate_rss_xml_spec;
          destruct (open_w output) as [eo|] eqn:Eo;
          [| match goal with
             | |- context [encodable ?d] =>
                 destruct (encodable d) eqn:Ee;
                 [ destruct (write_text output d) as [ew|] eqn:Ew |]
             end ] ]
     |]
   |];
  cbn [fst snd].


Ltac trace_member H Hf :=
  repeat (apply in_app_or in H; destruct H as [H|H]);
  try (apply (no_file_event _ _ Hf) in H; discriminate H);
  cbn [In] in H;
  repeat match type of H with
         | _ \/ _ => destruct H as [H|H]
         end;
  try discriminate H; try contradiction.


(** X13.  [main] returns 0 exactly when the feed was written to the
    output file; the only other value it returns is 1, and then the last
    thing it did was print the reason: the fetch failed, no article was
    found, or the file could not be written. *)
Theorem main_exit_zero_iff_feed_written output :
  (snd (main checks html_parser now utcnow requests_get open_w write_text
             output) = Exit 0
   <-> exists doc,
         In (Write output doc)
            (fst (main checks html_parser now utcnow requests_get open_w
                       write_text output)))
  /\ (forall c,
        snd (main checks html_parser now utcnow requests_get open_w
                  write_text output) = Exit c ->
        c = 0 \/ c = 1)
  /\ (snd (main checks html_parser now utcnow requests_get open_w write_text
                output) = Exit 1 ->
      exists line,
        last (fst (main checks html_parser now utcnow requests_get open_w
                        write_text output)) (Print [])
        = Print line
        /\ (line = py "Failed to fetch content. Exiting."
            \/ line = py "No articles found. Exiting."
            \/ exists e, line = py "Error writing RSS feed: " ++ e)).
Proof.
  run_main output;
    (split; [split; [intros H; try discriminate H
                    |intros (doc & H); trace_member H Hf]|]);
    try (split; [intros c [= <-]; auto|]);
    try (split; [intros c H; discriminate H|]);
    try (intros H; discriminate H); try intros _;
    try (eexists; split; [apply last_last|]; eauto).
  - eexists. apply in_or_app. right. now left.
  - reflexivity.
Qed.


End ProgramBehaviour.

(** ** The further properties on the sample inputs *)

Lemma extract_articles_records_stem_from_links_witness :
  length sample_records
  <= length (filter qualifying
               (enumerated_links (fun _ => sample_page) sample_markup))
  /\ forall a, In a sample_records ->
       exists link,
         In link (enumerated_links (fun _ => sample_page) sample_markup)
         /\ qualifying link = true
         /\ get (py "title") a = Some (title_of link)
         /\ get (py "description") a = Some (title_of link)
         /\ get (py "link") a = resolved_href lenient_checks link.
Proof.
  apply (extract_articles_records_stem_from_links
           lenient_checks (fun _ => sample_page) (sample_clock None)
           sample_markup 0 sample_records 0).
  vm_compute. reflexivity.
Defined.

Lemma extract_articles_clock_reads_witness :
  1 = 0 + length (filter undated
                    (filter qualifying
                       (enumerated_links (fun _ => http_path_page)
                                         sample_markup))).
Proof.
  apply (extract_articles_clock_reads
           lenient_checks (fun _ => http_path_page) (sample_clock None)
           sample_markup 0
           [record (py "Hello world") (py "httpx/a.html") (py "2025-06-07")]
           1).
  vm_compute. reflexivity.
Defined.

Lemma extract_articles_clock_independent_witness :
  extract_articles lenient_checks (fun _ => sample_page)
                   (sample_clock None) sample_markup 0
  = extract_articles lenient_checks (fun _ => sample_page)
                     stopping_clock sample_markup 0.
Proof.
  apply (extract_articles_clock_independent
           lenient_checks (fun _ => sample_page) (sample_clock None)
           stopping_clock sample_markup 0).
  intros link Hin Hq.
  assert (F : forallb (fun l => implb (qualifying l) (negb (undated l)))
                      (enumerated_links (fun _ => sample_page) sample_markup)
              = true) by (vm_compute; reflexivity).
  rewrite forallb_forall in F. specialize (F link Hin).
  rewrite Hq in F. destruct (undated link); [discriminate F | reflexivity].
Defined.

Lemma extract_articles_links_are_absolute_witness :
  Forall (fun a =>
            exists l,
              get (py "link") a = Some l
              /\ (startswith l (py "http") = true
                  \/ exists s, url_scheme l = Some s /\ s <> py "https"))
         sample_records.
Proof.
  apply (extract_articles_links_are_absolute
           lenient_checks (fun _ => sample_page) (sample_clock None)
           sample_markup 0 sample_records 0).
  vm_compute. reflexivity.
Defined.

Lemma generate_rss_xml_clock_reads_witness :
  exists doc,
    generate_rss_xml (sample_clock (Some utc)) undated_records 0
    = Returned doc (1 + length (filter falls_back undated_records))
    /\ generate_rss_xml stopping_clock undated_records 0
       = Returned doc (1 + length (filter falls_back undated_records)).
Proof.
  apply (generate_rss_xml_clock_reads
           (sample_clock (Some utc)) stopping_clock undated_records 0).
  intros j Hj.
  change (length (filter falls_back undated_records)) with 1 in Hj.
  destruct j as [|[|j]]; [reflexivity | reflexivity | lia].
Defined.

Lemma missing_description_is_title_escaped_twice_witness :
  exists blocks k' title link stamp,
    generate_rss_xml (sample_clock (Some utc)) [bare_record] 0
    = Returned (channel_head (sample_clock (Some utc) 0)
                ++ concat blocks ++ channel_foot) k'
    /\ nth_error blocks 0
       = Some (item_block (escape title) (escape link)
                          (escape (escape title)) stamp)
    /\ title = match get (py "title") bare_record with
               | Some t => t
               | None => py "No Title"
               end
    /\ link = match get (py "link") bare_record with
              | Some l => l
              | None => py "#"
              end
    /\ unescape (escape (escape title)) = Some (escape title)
    /\ (has_special title = true -> escape title <> title).
Proof.
  apply (missing_description_is_title_escaped_twice
           (sample_clock (Some utc)) [bare_record] 0 0 bare_record).
  - reflexivity.
  - vm_compute. reflexivity.
Defined.

Lemma extracted_records_render_distinct_guids_witness :
  exists blocks k2,
    generate_rss_xml (sample_clock (Some utc)) sample_records 0
    = Returned (channel_head (sample_clock (Some utc) 0)
                ++ concat blocks ++ channel_foot) k2
    /\ NoDup (map (fun a => escape (get_default (py "link") a (py "#")))
                  sample_records)
    /\ forall i a,
         nth_error sample_records i = Some a ->
         exists title description stamp,
           nth_error blocks i
           = Some (item_block title
                     (escape (get_default (py "link") a (py "#")))
                     description stamp).
Proof.
  apply (extracted_records_render_distinct_guids
           lenient_checks (fun _ => sample_page) (sample_clock None)
           (sample_clock (Some utc)) sample_markup 0 sample_records 0).
  vm_compute. reflexivity.
Defined.

Lemma fallback_date_round_trip_witness :
  strptime_ymd (strftime (sample_clock None 0) (py "%Y-%m-%d"))
  = inr (midnight (sample_clock None 0))
  /\ forall utcnow a rss k,
       get (py "pubDate") a
       = Some (strftime (sample_clock None 0) (py "%Y-%m-%d")) ->
       exists title link description,
         render_item utcnow a rss k
         = Returned
             (rss ++ item_block title link description
                       (strftime (replace_noon_utc (sample_clock None 0))
                                 rfc822))
             k.
Proof.
  apply (fallback_date_round_trip (sample_clock None 0)).
  - apply sample_clock_four_digit_year.
  - apply Nat.leb_le. reflexivity.
Defined.

